(** * Popup.tsx: the sign-in / 2FA / sign-out controller of the popup

    A shallow embedding of [src/pages/Popup/Popup.tsx].  The popup is a React
    function component: its state lives in hooks and every event handler is an
    [async] function that awaits calls on an [ICloudClient].  Handlers are
    embedded as computations in a small state-and-exception monad [Async]
    over a [World] that holds the hook state, the persisted storage record
    and the sequence of calls issued so far. *)

From Stdlib Require Import ZArith Lia String List Bool.
From Stdlib Require Import Sorted.
From stdpp Require Import base decidable option list strings gmap.
Import ListNotations.

Local Open Scope string_scope.
Local Open Scope Z_scope.

(** ** Data model *)

(** [PopupState] of [./stateMachine]: the four phases. *)
Inductive PopupState :=
| SignedOut
| SignedIn
| Verified
| VerifiedAndManaging.

#[global] Instance PopupState_eq_dec : EqDecision PopupState.
Proof. solve_decision. Defined.

(** The action types of [./stateMachine]; each is a union of string literals,
    and the literal ['SUCCESSFUL_SIGN_OUT'] belongs to three of them. *)
Module SignedOutAction.
Inductive t := SUCCESSFUL_SIGN_IN.
End SignedOutAction.

Module SignedInAction.
Inductive t := SUCCESSFUL_VERIFICATION | SUCCESSFUL_SIGN_OUT.
End SignedInAction.

Module VerifiedAction.
Inductive t := MANAGE | SUCCESSFUL_SIGN_OUT.
End VerifiedAction.

Module VerifiedAndManagingAction.
Inductive t := GENERATE | SUCCESSFUL_SIGN_OUT.
End VerifiedAndManagingAction.

(** The actions a phase accepts: the key type of [STATE_MACHINE_TRANSITIONS[state]]. *)
Definition ActionOf (state : PopupState) : Type :=
  match state with
  | SignedOut => SignedOutAction.t
  | SignedIn => SignedInAction.t
  | Verified => VerifiedAction.t
  | VerifiedAndManaging => VerifiedAndManagingAction.t
  end.

(** Modelled from the spec: the table [STATE_MACHINE_TRANSITIONS] of
    [./stateMachine], which Popup.tsx imports and indexes with the phase
    and the action; row by row from the state machine summary. *)
Definition STATE_MACHINE_TRANSITIONS (state : PopupState) : ActionOf state -> PopupState :=
  match state with
  | SignedOut => fun action =>
      match action with
      | SignedOutAction.SUCCESSFUL_SIGN_IN => SignedIn
      end
  | SignedIn => fun action =>
      match action with
      | SignedInAction.SUCCESSFUL_VERIFICATION => Verified
      | SignedInAction.SUCCESSFUL_SIGN_OUT => SignedOut
      end
  | Verified => fun action =>
      match action with
      | VerifiedAction.MANAGE => VerifiedAndManaging
      | VerifiedAction.SUCCESSFUL_SIGN_OUT => SignedOut
      end
  | VerifiedAndManaging => fun action =>
      match action with
      | VerifiedAndManagingAction.GENERATE => Verified
      | VerifiedAndManagingAction.SUCCESSFUL_SIGN_OUT => SignedOut
      end
  end.

(** Modelled from the spec: [ICloudClientSessionData] and
    [EMPTY_SESSION_DATA] of [../../iCloudClient], which Popup.tsx imports.
    The record is an opaque bag the provider fills: the session
    tokens, device-trust and scnt/session identifiers on one side, and the
    markers that only a completed second-factor round trip sets on the
    other.  There is one empty value. *)
Record ICloudClientSessionData := mkSessionData {
  tokens : gmap string string;
  verifiedMarkers : option (gmap string string)
}.

#[global] Instance ICloudClientSessionData_eq_dec : EqDecision ICloudClientSessionData.
Proof. solve_decision. Defined.

Definition EMPTY_SESSION_DATA : ICloudClientSessionData :=
  {| tokens := ∅; verifiedMarkers := None |}.

(** Modelled from the spec: a session is present iff its data is not the
    empty value. *)
Definition present (data : ICloudClientSessionData) : bool :=
  bool_decide (data ≠ EMPTY_SESSION_DATA).

(** ** Calls and effects, in the order they are issued *)

Inductive Event :=
| Call_verify2faCode (code : string)
| Call_trustDevice
| Call_accountLogin
| Call_validateToken
| Call_remoteLogOut
| Call_contextMenusUpdate
| Send_LogInRequest (email password : string)
| Do_clearSessionData
| Do_refreshSession
| Do_setState (next : PopupState)
| Log_debug (what : string).

#[global] Instance Event_eq_dec : EqDecision Event.
Proof. solve_decision. Defined.

(** The requests that reach the identity provider. *)
Definition isNetworkCall (e : Event) : bool :=
  match e with
  | Call_verify2faCode _ | Call_trustDevice | Call_accountLogin
  | Call_validateToken | Call_remoteLogOut => true
  | _ => false
  end.

(** The state of the popup: the two [useBrowserStorageState] values, the
    persisted copy of the session record, the [useState] cells of the form
    that is mounted, and the calls issued so far (oldest first). *)
Record World := mkWorld {
  state : PopupState;
  sessionData : ICloudClientSessionData;
  storedSessionData : ICloudClientSessionData;
  isSubmitting : bool;
  error : option string;
  trace : list Event
}.

(** The answers of the collaborators outside the popup.  Each answer may
    depend on everything that was issued before it. *)
Record Provider := mkProvider {
  accepts2faCode : list Event -> string -> bool;
  trustsDevice : list Event -> bool;
  accountLoginMarkers : list Event -> option (gmap string string);
  tokenIsValid : list Event -> ICloudClientSessionData -> bool;
  remoteLogOutSucceeds : list Event -> bool;
  contextMenuUpdateSucceeds : list Event -> bool
}.

(** ** The monad of [async] handlers *)

Inductive Outcome (A : Type) :=
| Returned (a : A)
| Thrown (reason : string).
Arguments Returned {A} a.
Arguments Thrown {A} reason.

Definition Async (A : Type) : Type := Provider -> World -> Outcome A * World.

Definition ret {A} (a : A) : Async A := fun _ w => (Returned a, w).

Definition bind {A B} (c : Async A) (k : A -> Async B) : Async B :=
  fun pr w =>
    match c pr w with
    | (Returned a, w') => k a pr w'
    | (Thrown e, w') => (Thrown e, w')
    end.

Definition throw {A} (reason : string) : Async A := fun _ w => (Thrown reason, w).

(** [try { c } catch (e) { handler }] *)
Definition tryCatch {A} (c : Async A) (handler : string -> Async A) : Async A :=
  fun pr w =>
    match c pr w with
    | (Returned a, w') => (Returned a, w')
    | (Thrown e, w') => handler e pr w'
    end.

(** [Async] is a monad in stdpp's sense, which gives the handlers the
    notations [x ← c; k] and [c;; k] for [await]. *)
#[global] Instance Async_ret : MRet Async := @ret.
#[global] Instance Async_bind : MBind Async := fun A B k c => bind c k.

Definition ask : Async Provider := fun pr w => (Returned pr, w).
Definition getWorld : Async World := fun _ w => (Returned w, w).
Definition modify (f : World -> World) : Async unit := fun _ w => (Returned tt, f w).

Definition emit (e : Event) : Async unit :=
  modify (fun w => mkWorld (state w) (sessionData w) (storedSessionData w)
                           (isSubmitting w) (error w) (trace w ++ [e])).

(** The world a handler leaves behind, and what it returned. *)
Definition exec {A} (c : Async A) (pr : Provider) (w : World) : World := snd (c pr w).
Definition outcome {A} (c : Async A) (pr : Provider) (w : World) : Outcome A := fst (c pr w).

(** The calls a handler issued, given the world it started from. *)
Definition issued {A} (c : Async A) (pr : Provider) (w : World) : list Event :=
  drop (length (trace w)) (trace (exec c pr w)).

(** ** Hooks and storage *)

(** Modelled from the spec: the setters that [useBrowserStorageState] of
    [../../hooks] returns.  A set persists the value under its storage key and
    updates the hook state; the phase and the session record are two
    independent keys. *)
Definition setState (next : PopupState) : Async unit :=
  emit (Do_setState next);;
  modify (fun w => mkWorld next (sessionData w) (storedSessionData w)
                           (isSubmitting w) (error w) (trace w)).

Definition setSessionData (data : ICloudClientSessionData) : Async unit :=
  modify (fun w => mkWorld (state w) data data (isSubmitting w) (error w) (trace w)).

(** Modelled from the spec: [getBrowserStorageValue(SESSION_DATA_STORAGE_KEYS)]
    of [../../storage] reads the persisted session record. *)
Definition getBrowserStorageValue : Async ICloudClientSessionData :=
  w ← getWorld; mret (storedSessionData w).

(** The [useState] cells of the mounted form. *)
Definition setIsSubmitting (b : bool) : Async unit :=
  modify (fun w => mkWorld (state w) (sessionData w) (storedSessionData w)
                           b (error w) (trace w)).

Definition setError (e : option string) : Async unit :=
  modify (fun w => mkWorld (state w) (sessionData w) (storedSessionData w)
                           (isSubmitting w) e (trace w)).

(** [promise.catch(console.debug)]: a rejection is logged and goes no further. *)
Definition catchDebug (c : Async unit) : Async unit :=
  tryCatch c (fun e => emit (Log_debug e)).

(** ** The client *)

Module ICloudClient.

(** Modelled from the spec: the class [ICloudClient] of [../../iCloudClient]
    with its session.  Popup.tsx builds a client from the session data, the
    setter that persists it and, for the client handed to the screens,
    [refreshSessionCallback]; only the last differs between the clients it
    builds. *)
Record t := mk {
  dataRefresher : option (Async unit)
}.

(** Modelled from the spec: [authenticated] is true iff the session data
    carries the markers set by a completed second-factor round trip. *)
Definition authenticated (client : t) : Async bool :=
  w ← getWorld; mret (bool_decide (is_Some (verifiedMarkers (sessionData w)))).

(** Modelled from the spec: [validateToken] is a light authenticated call; a
    non-success answer makes it fail; it does not change the session data. *)
Definition validateToken (client : t) : Async unit :=
  emit Call_validateToken;;
  pr ← ask; w ← getWorld;
  if tokenIsValid pr (trace w) (sessionData w) then mret tt
  else throw "validateToken: session is not valid".

(** Modelled from the spec: [refreshSession] re-reads the persisted session
    data through the refresh callback the session was built with. *)
Definition refreshSession (client : t) : Async unit :=
  emit Do_refreshSession;;
  match dataRefresher client with
  | Some refresh => refresh
  | None => mret tt
  end.

(** Modelled from the spec: [verify2faCode] submits the code and fails when the
    code has the wrong length or the provider rejects it. *)
Definition verify2faCode (client : t) (code : string) : Async unit :=
  emit (Call_verify2faCode code);;
  pr ← ask; w ← getWorld;
  if bool_decide (String.length code = 6%nat) && accepts2faCode pr (trace w) code
  then mret tt
  else throw "verify2faCode: verification error".

(** Modelled from the spec: [trustDevice] asks the provider to mark the device
    as trusted; the trust is a marker on the provider's side. *)
Definition trustDevice (client : t) : Async unit :=
  emit Call_trustDevice;;
  pr ← ask; w ← getWorld;
  if trustsDevice pr (trace w) then mret tt
  else throw "trustDevice: rejected".

(** Modelled from the spec: [accountLogin] finalizes the session: on success
    it stores the markers of the answer, which make [authenticated] true. *)
Definition accountLogin (client : t) : Async unit :=
  emit Call_accountLogin;;
  pr ← ask; w ← getWorld;
  match accountLoginMarkers pr (trace w) with
  | Some markers =>
      setSessionData {| tokens := tokens (sessionData w);
                        verifiedMarkers := Some markers |}
  | None => throw "accountLogin: rejected"
  end.

(** Modelled from the spec: the request of [logOut] that invalidates the
    session on the provider's side; it can fail. *)
Definition remoteLogOut : Async unit :=
  emit Call_remoteLogOut;;
  pr ← ask; w ← getWorld;
  if remoteLogOutSucceeds pr (trace w) then mret tt
  else throw "logout request failed".

(** Modelled from the spec: [logOut] attempts the remote invalidation, logs
    but never propagates its failure, and then clears the local session data
    unconditionally. *)
Definition logOut (client : t) : Async unit :=
  catchDebug remoteLogOut;;
  emit Do_clearSessionData;;
  setSessionData EMPTY_SESSION_DATA.

End ICloudClient.

(** [browser.contextMenus.update(CONTEXT_MENU_ITEM_ID, ...)] *)
Definition contextMenus_update : Async unit :=
  emit Call_contextMenusUpdate;;
  pr ← ask; w ← getWorld;
  if contextMenuUpdateSucceeds pr (trace w) then mret tt
  else throw "contextMenus.update rejected".

(** [logOut] of Popup.tsx. *)
Definition logOut (client : ICloudClient.t) : Async unit :=
  ICloudClient.logOut client;;
  catchDebug contextMenus_update.

(** ** Messages from the background context *)

Inductive MessageType := LogInRequest | LogInResponse | Autofill.

#[global] Instance MessageType_eq_dec : EqDecision MessageType.
Proof. solve_decision. Defined.

Record LogInResponseData := mkLogInResponseData {
  success : bool;
  action : option SignedOutAction.t
}.

Record Message := mkMessage {
  type : MessageType;
  data : LogInResponseData
}.

(** ** The screens *)

Definition TransitionCallback (T : Type) : Type := T -> Async unit.

(** The listener [SignInForm] registers with [browser.runtime.onMessage]. *)
Definition SignInForm_onMessage (callback : TransitionCallback SignedOutAction.t)
    (client : ICloudClient.t) (message : Message) : Async unit :=
  if bool_decide (type message ≠ LogInResponse) then mret tt
  else
    setIsSubmitting false;;
    if success (data message) then
      ICloudClient.refreshSession client;;
      match action (data message) with
      | Some a => callback a
      | None => mret tt
      end
    else setError (Some "Failed to sign in. Please try again.").

Definition SignInForm_onFormSubmit (email password : string) : Async unit :=
  setIsSubmitting true;;
  setError None;;
  emit (Send_LogInRequest email password).

(** [code] holds what [AuthCode] collected; its input accepts digits only,
    for which [code.length] is the number of characters. *)
Definition TwoFaForm_onFormSubmit (callback : TransitionCallback SignedInAction.t)
    (client : ICloudClient.t) (code : string) : Async unit :=
  setIsSubmitting true;;
  setError None;;
  if bool_decide (String.length code = 6%nat) then
    tryCatch
      (ICloudClient.verify2faCode client code;;
       ICloudClient.trustDevice client;;
       ICloudClient.accountLogin client;;
       setIsSubmitting false;;
       callback SignedInAction.SUCCESSFUL_VERIFICATION)
      (fun _ =>
       setIsSubmitting false;;
       setError (Some "2FA failed. Please try entering the code again or sign-out and sign back in."))
  else
    setIsSubmitting false;;
    setError (Some "Please fill in all of the 6 digits of the code.").

(** The [onClick] of [SignOutButton]; its callback accepts the one literal
    ['SUCCESSFUL_SIGN_OUT']. *)
Definition SignOutButton_onClick (callback : TransitionCallback unit)
    (client : ICloudClient.t) : Async unit :=
  logOut client;;
  callback tt.

(** What [transitionToNextStateElement] returns: one of the four screens with
    the props it was given. *)
Inductive ReactElement :=
| SignInForm (callback : TransitionCallback SignedOutAction.t) (client : ICloudClient.t)
| TwoFaForm (callback : TransitionCallback SignedInAction.t) (client : ICloudClient.t)
| HmeGenerator (callback : TransitionCallback VerifiedAction.t) (client : ICloudClient.t)
| HmeManager (callback : TransitionCallback VerifiedAndManagingAction.t) (client : ICloudClient.t).

(** The [SignOutButton] a screen renders, if it renders one: [TwoFaForm],
    [HmeGenerator] and [HmeManager] each contain [<SignOutButton {...props} />],
    [SignInForm] contains none. *)
Definition signOutButton (el : ReactElement) : option (Async unit) :=
  match el with
  | SignInForm _ _ => None
  | TwoFaForm callback client =>
      Some (SignOutButton_onClick
              (fun _ => callback SignedInAction.SUCCESSFUL_SIGN_OUT) client)
  | HmeGenerator callback client =>
      Some (SignOutButton_onClick
              (fun _ => callback VerifiedAction.SUCCESSFUL_SIGN_OUT) client)
  | HmeManager callback client =>
      Some (SignOutButton_onClick
              (fun _ => callback VerifiedAndManagingAction.SUCCESSFUL_SIGN_OUT) client)
  end.

(** The footer button next to it: "Manage emails" in [HmeGenerator],
    "Generate new email" in [HmeManager]. *)
Definition footerButton (el : ReactElement) : option (Async unit) :=
  match el with
  | HmeGenerator callback _ => Some (callback VerifiedAction.MANAGE)
  | HmeManager callback _ => Some (callback VerifiedAndManagingAction.GENERATE)
  | _ => None
  end.

(** The [switch] compares [state] with each case label in turn and falls to
    [default] when none is equal. *)
Definition transitionToNextStateElement (state : PopupState)
    (setState : PopupState -> Async unit) (client : ICloudClient.t)
    : Outcome ReactElement :=
  if decide (state = SignedOut) then
    Returned (SignInForm
      (fun action => setState (STATE_MACHINE_TRANSITIONS SignedOut action)) client)
  else if decide (state = SignedIn) then
    Returned (TwoFaForm
      (fun action => setState (STATE_MACHINE_TRANSITIONS SignedIn action)) client)
  else if decide (state = Verified) then
    Returned (HmeGenerator
      (fun action => setState (STATE_MACHINE_TRANSITIONS Verified action)) client)
  else if decide (state = VerifiedAndManaging) then
    Returned (HmeManager
      (fun action => setState (STATE_MACHINE_TRANSITIONS VerifiedAndManaging action)) client)
  else Thrown "Unhandled PopupState case".

(** The callback a screen received, applied to an action of the phase it
    was rendered for. *)
Definition callbackOf (state : PopupState) (el : ReactElement)
    : option (TransitionCallback (ActionOf state)) :=
  match state, el with
  | SignedOut, SignInForm callback _ => Some callback
  | SignedIn, TwoFaForm callback _ => Some callback
  | Verified, HmeGenerator callback _ => Some callback
  | VerifiedAndManaging, HmeManager callback _ => Some callback
  | _, _ => None
  end.

(** ** The [Popup] component *)

Definition refreshSessionCallback : Async unit :=
  refreshedSessionData ← getBrowserStorageValue;
  setSessionData refreshedSessionData.

(** The effect of [Popup]; React runs it on mount and whenever [sessionData]
    changes.  Its client is built without a refresh callback. *)
Definition validateSession : Async unit :=
  let client := ICloudClient.mk None in
  isAuthenticated ← ICloudClient.authenticated client;
  if (isAuthenticated : bool) then
    tryCatch (ICloudClient.validateToken client)
             (fun _ => logOut client;; setState SignedOut)
  else mret tt.

(** The client [Popup] hands to the screens, and what it renders. *)
Definition popupClient : ICloudClient.t := ICloudClient.mk (Some refreshSessionCallback).

Definition Popup (w : World) : Outcome ReactElement :=
  transitionToNextStateElement (state w) setState popupClient.

(** ** The management view: [HmeManager]'s list and selection *)

(** [HmeEmail] of [../../iCloudClient], with the fields Popup.tsx reads. *)
Record HmeEmail := mkHmeEmail {
  hme : string;
  label : string;
  isActive : bool;
  anonymousId : string;
  forwardToEmail : string;
  createTimestamp : Z;
  note : string
}.

#[global] Instance HmeEmail_eq_dec : EqDecision HmeEmail.
Proof. solve_decision. Defined.

(** [array[index]] for an integer index: [undefined] outside [0 .. length-1]. *)
Definition jsIndex {A} (array : list A) (index : Z) : option A :=
  if index <? 0 then None else array !! Z.to_nat index.

(** [array.length] as a number. *)
Definition jsLength {A} (array : list A) : Z := Z.of_nat (length array).

(** What one call of [hmeListGrid] produces: the [setSelectedHmeIdx] it
    issued while rendering (if any), the email it selected, and the two
    panes. *)
Inductive LeftPane :=
| NoSearchResult (prompt : string)
| LabelList (labels : list (string * bool)).

Record HmeListGrid := mkHmeListGrid {
  displayed : list HmeEmail;
  setSelectedHmeIdxCall : option Z;
  selectedHmeEmail : option HmeEmail;
  leftPane : LeftPane;
  hmeDetails : option HmeEmail
}.

Section HmeManager.

(** [new Fuse(hmeEmails, {keys: ['label', 'hme'], threshold: 0.4}).search(prompt)]
    followed by [.map(result => result.item)]: the fuzzy search of fuse.js. *)
Variable fuseSearch : string -> list HmeEmail -> list HmeEmail.

Definition searchHmeEmails (searchPrompt : string) (hmeEmails : list HmeEmail)
    : option (list HmeEmail) :=
  if bool_decide (searchPrompt = "") then None
  else Some (fuseSearch searchPrompt hmeEmails).

(** [searchPrompt || ''] *)
Definition promptOrEmpty (searchPrompt : option string) : string :=
  default "" searchPrompt.

Definition hmeListGrid (selectedHmeIdx : Z) (searchPrompt : option string)
    (fetchedHmeEmails : list HmeEmail) : HmeListGrid :=
  (* an array, even an empty one, is truthy: only [undefined] falls through *)
  let hmeEmails :=
    default fetchedHmeEmails
      (searchHmeEmails (promptOrEmpty searchPrompt) fetchedHmeEmails) in
  let call :=
    if selectedHmeIdx >=? jsLength hmeEmails
    then Some (jsLength hmeEmails - 1) else None in
  let selected := jsIndex hmeEmails selectedHmeIdx in
  let labelList :=
    imap (fun idx e => (label e, bool_decide (Z.of_nat idx = selectedHmeIdx))) hmeEmails in
  {| displayed := hmeEmails;
     setSelectedHmeIdxCall := call;
     selectedHmeEmail := selected;
     leftPane :=
       if bool_decide (jsLength hmeEmails = 0)
          && negb (bool_decide (promptOrEmpty searchPrompt = ""))
       then NoSearchResult (promptOrEmpty searchPrompt)
       else LabelList labelList;
     hmeDetails := selected |}.

(** The [useState] cells of [HmeManager] that the list depends on. *)
Record ManagerState := mkManagerState {
  fetchedHmeEmails : list HmeEmail;
  selectedHmeIdx : Z;
  searchPrompt : option string
}.

Definition renderPass (st : ManagerState) : HmeListGrid :=
  hmeListGrid (selectedHmeIdx st) (searchPrompt st) (fetchedHmeEmails st).

(** A state update issued while rendering makes React render the component
    again with the new state before anything is shown. *)
Definition applyCall (st : ManagerState) (grid : HmeListGrid) : ManagerState :=
  match setSelectedHmeIdxCall grid with
  | Some idx => mkManagerState (fetchedHmeEmails st) idx (searchPrompt st)
  | None => st
  end.

Fixpoint renderUntilStable (fuel : nat) (st : ManagerState)
    : option (ManagerState * HmeListGrid) :=
  match fuel with
  | O => None
  | S fuel' =>
      let grid := renderPass st in
      match setSelectedHmeIdxCall grid with
      | None => Some (st, grid)
      | Some _ => renderUntilStable fuel' (applyCall st grid)
      end
  end.

(** The handlers that change the cells. *)
Definition onSearchChange (value : string) (st : ManagerState) : ManagerState :=
  mkManagerState (fetchedHmeEmails st) 0 (Some value).

Definition onLabelClick (idx : nat) (st : ManagerState) : ManagerState :=
  mkManagerState (fetchedHmeEmails st) (Z.of_nat idx) (searchPrompt st).

Definition setFetchedHmeEmails (emails : list HmeEmail) (st : ManagerState) : ManagerState :=
  mkManagerState emails (selectedHmeIdx st) (searchPrompt st).

End HmeManager.

(** ** What the user does with the screen the popup shows *)

(** Submitting the 2FA form of the screen rendered for [w]. *)
Definition user_submits2faCode (w : World) (code : string) : Async unit :=
  match Popup w with
  | Returned (TwoFaForm callback client) => TwoFaForm_onFormSubmit callback client code
  | _ => throw "TwoFaForm is not mounted"
  end.

(** A message reaching the listener of the screen rendered for [w]. *)
Definition user_receivesMessage (w : World) (message : Message) : Async unit :=
  match Popup w with
  | Returned (SignInForm callback client) => SignInForm_onMessage callback client message
  | _ => throw "SignInForm is not mounted"
  end.

(** Modelled from the spec: the sign-in of the background context, which runs
    outside the popup, writes the session data the provider returned to the
    storage key; the popup's own copy is untouched until it is refreshed. *)
Definition backgroundSignIn (written : ICloudClientSessionData) (w : World) : World :=
  mkWorld (state w) (sessionData w) written (isSubmitting w) (error w) (trace w).

(** The provider's answers to the three calls of a 2FA submission that
    starts in [w]. *)
Definition verifyAccepted (pr : Provider) (w : World) (code : string) : bool :=
  accepts2faCode pr (trace w ++ [Call_verify2faCode code]) code.

Definition deviceTrusted (pr : Provider) (w : World) (code : string) : bool :=
  trustsDevice pr (trace w ++ [Call_verify2faCode code; Call_trustDevice]).

Definition loginAnswer (pr : Provider) (w : World) (code : string)
    : option (gmap string string) :=
  accountLoginMarkers pr
    (trace w ++ [Call_verify2faCode code; Call_trustDevice; Call_accountLogin]).

Definition failed2fa : string :=
  "2FA failed. Please try entering the code again or sign-out and sign back in.".

(** What [logOut] issues when it starts after the calls [before]: the remote
    invalidation, a log line if it failed, the local clear, the context-menu
    update, and a log line if that failed. *)
Definition remoteLogOutEvents (pr : Provider) (before : list Event) : list Event :=
  Call_remoteLogOut ::
  (if remoteLogOutSucceeds pr (before ++ [Call_remoteLogOut]) then []
   else [Log_debug "logout request failed"]).

Definition contextMenuEvents (pr : Provider) (before : list Event) : list Event :=
  Call_contextMenusUpdate ::
  (if contextMenuUpdateSucceeds pr (before ++ [Call_contextMenusUpdate]) then []
   else [Log_debug "contextMenus.update rejected"]).

Definition logOutEvents (pr : Provider) (before : list Event) : list Event :=
  remoteLogOutEvents pr before ++
  Do_clearSessionData ::
  contextMenuEvents pr (before ++ remoteLogOutEvents pr before ++ [Do_clearSessionData]).

(** What an observer of the popup sees of a world: everything but the log of
    calls. *)
Definition observable (w : World)
    : PopupState * ICloudClientSessionData * ICloudClientSessionData * bool * option string :=
  (state w, sessionData w, storedSessionData w, isSubmitting w, error w).

(** ** Sample sessions and providers *)

(** The session data right after the password was accepted: identifiers of
    the pending session, no markers yet. *)
Definition unverifiedSessionData : ICloudClientSessionData :=
  {| tokens := {[ "scnt" := "AAAA"; "X-Apple-ID-Session-Id" := "BBBB" ]};
     verifiedMarkers := None |}.

(** The same session once the second factor was completed. *)
Definition verifiedSessionData : ICloudClientSessionData :=
  {| tokens := {[ "scnt" := "AAAA"; "X-Apple-ID-Session-Id" := "BBBB" ]};
     verifiedMarkers :=
       Some {[ "premiummailsettings" := "https://p42-maildomainws.icloud.com" ]} |}.

(** A provider that refuses everything, and one that grants everything. *)
Definition rejectingProvider : Provider :=
  mkProvider (fun _ _ => false) (fun _ => false) (fun _ => None)
             (fun _ _ => false) (fun _ => false) (fun _ => false).

Definition grantingProvider : Provider :=
  mkProvider (fun _ _ => true) (fun _ => true)
             (fun _ => Some {[ "premiummailsettings" := "https://p42-maildomainws.icloud.com" ]})
             (fun _ _ => true) (fun _ => true) (fun _ => true).

(** A provider that accepts the code and then refuses to trust the device. *)
Definition distrustingProvider : Provider :=
  mkProvider (fun _ _ => true) (fun _ => false) (fun _ => None)
             (fun _ _ => true) (fun _ => true) (fun _ => true).

Definition worldWith (phase : PopupState) (data : ICloudClientSessionData) : World :=
  mkWorld phase data data false None [].

(** ** A sample search and sample emails *)

(** [contains needle hay]: [needle] occurs in [hay]. *)
Fixpoint contains (needle hay : string) : bool :=
  String.prefix needle hay ||
  match hay with
  | EmptyString => false
  | String _ rest => contains needle rest
  end.

(** A search that keeps the emails whose label or address contains the
    prompt; on the samples below fuse.js keeps the same emails. *)
Definition substringSearch (prompt : string) (hmeEmails : list HmeEmail)
    : list HmeEmail :=
  List.filter (fun e => contains prompt (label e) || contains prompt (hme e)) hmeEmails.

Definition shopEmail : HmeEmail :=
  mkHmeEmail "fig.crate.0a@icloud.com" "shop.example.com" true "id-1"
             "me@example.com" 1700000000000 "".

Definition newsEmail : HmeEmail :=
  mkHmeEmail "oak.lamp.1b@icloud.com" "news.example.org" true "id-2"
             "me@example.com" 1700000500000 "".

(** ** The calls of the alias screens *)

(** The methods of [PremiumMailSettings] that Popup.tsx calls. *)
Inductive PmsCall :=
| Call_listHme
| Call_generateHme
| Call_reserveHme (address label : string) (note : option string)
| Call_deactivateHme (anonymousId : string)
| Call_reactivateHme (anonymousId : string)
| Call_deleteHme (anonymousId : string).

#[global] Instance PmsCall_eq_dec : EqDecision PmsCall.
Proof. solve_decision. Defined.

(** The part of the answer of [listHme] that Popup.tsx reads. *)
Record ListHmeResult := mkListHmeResult {
  hmeEmails : list HmeEmail;
  selectedForwardTo : option string
}.

(** What [new PremiumMailSettings(props.client)] answers to each method at
    the time of the call: a value, or a rejection [e] of which the handlers
    keep [e.toString()]. *)
Record PremiumMailSettings := mkPremiumMailSettings {
  listHme : Outcome ListHmeResult;
  generateHme : Outcome string;
  reserveHme : string -> string -> option string -> Outcome HmeEmail;
  deactivateHme : string -> Outcome unit;
  reactivateHme : string -> Outcome unit;
  deleteHme : string -> Outcome unit
}.

(** [a || b] on strings that may be [undefined]: [undefined] and the empty
    string are falsy. *)
Definition truthy (s : option string) : bool :=
  match s with
  | Some s => negb (bool_decide (s = ""))
  | None => false
  end.

Definition orString (a : option string) (b : string) : string :=
  if truthy a then default "" a else b.

(** [a || undefined] *)
Definition orUndefined (a : option string) : option string :=
  if truthy a then a else None.

(** [array.sort(compareFn)] for a consistent [compareFn]: the stable sort,
    whichever algorithm the engine runs.  [compareFn a b <= 0] keeps [a]
    before [b]. *)
Fixpoint sortInsert {A} (compareFn : A -> A -> Z) (x : A) (sorted : list A) : list A :=
  match sorted with
  | [] => [x]
  | y :: rest =>
      if compareFn x y <=? 0 then x :: y :: rest
      else y :: sortInsert compareFn x rest
  end.

Definition jsSort {A} (compareFn : A -> A -> Z) (array : list A) : list A :=
  foldr (sortInsert compareFn) [] array.

(** [(a, b) => b.createTimestamp - a.createTimestamp] *)
Definition newestFirst (a b : HmeEmail) : Z := createTimestamp b - createTimestamp a.

(** [{ ...hmeEmail, isActive: !hmeEmail.isActive }] *)
Definition toggled (hmeEmail : HmeEmail) : HmeEmail :=
  mkHmeEmail (hme hmeEmail) (label hmeEmail) (negb (isActive hmeEmail))
             (anonymousId hmeEmail) (forwardToEmail hmeEmail)
             (createTimestamp hmeEmail) (note hmeEmail).

(** ** [HmeDetails] *)

Module Details.

(** The [useState] cells of [HmeDetails]. *)
Record t := mk {
  isActivateSubmitting : bool;
  isDeleteSubmitting : bool;
  error : option string
}.

Definition initial : t := mk false false None.

Definition setIsActivateSubmitting (b : bool) (d : t) : t :=
  mk b (isDeleteSubmitting d) (error d).

Definition setIsDeleteSubmitting (b : bool) (d : t) : t :=
  mk (isActivateSubmitting d) b (error d).

Definition setError (e : option string) (d : t) : t :=
  mk (isActivateSubmitting d) (isDeleteSubmitting d) e.

(** The effect on [props.hme]: a new email resets the error and the loaders. *)
Definition onHmeChange (d : t) : t :=
  setIsDeleteSubmitting false (setIsActivateSubmitting false (setError None d)).

End Details.

(** ** [HmeManager] *)

Module Manager.

(** The [useState] cells of [HmeManager], the cells of the [HmeDetails] it
    mounts, and the calls issued so far (oldest first). *)
Record t := mk {
  fetchedHmeEmails : option (list HmeEmail);
  hmeEmailsError : option string;
  isFetching : bool;
  selectedHmeIdx : Z;
  searchPrompt : option string;
  details : Details.t;
  calls : list PmsCall
}.

Definition initial : t := mk None None true 0 None Details.initial [].

Definition setFetchedHmeEmails (f : option (list HmeEmail) -> option (list HmeEmail))
    (s : t) : t :=
  mk (f (fetchedHmeEmails s)) (hmeEmailsError s) (isFetching s) (selectedHmeIdx s)
     (searchPrompt s) (details s) (calls s).

Definition setHmeEmailsError (e : option string) (s : t) : t :=
  mk (fetchedHmeEmails s) e (isFetching s) (selectedHmeIdx s)
     (searchPrompt s) (details s) (calls s).

Definition setIsFetching (b : bool) (s : t) : t :=
  mk (fetchedHmeEmails s) (hmeEmailsError s) b (selectedHmeIdx s)
     (searchPrompt s) (details s) (calls s).

Definition setSelectedHmeIdx (idx : Z) (s : t) : t :=
  mk (fetchedHmeEmails s) (hmeEmailsError s) (isFetching s) idx
     (searchPrompt s) (details s) (calls s).

Definition setSearchPrompt (prompt : option string) (s : t) : t :=
  mk (fetchedHmeEmails s) (hmeEmailsError s) (isFetching s) (selectedHmeIdx s)
     prompt (details s) (calls s).

Definition updateDetails (f : Details.t -> Details.t) (s : t) : t :=
  mk (fetchedHmeEmails s) (hmeEmailsError s) (isFetching s) (selectedHmeIdx s)
     (searchPrompt s) (f (details s)) (calls s).

Definition issue (call : PmsCall) (s : t) : t :=
  mk (fetchedHmeEmails s) (hmeEmailsError s) (isFetching s) (selectedHmeIdx s)
     (searchPrompt s) (details s) (calls s ++ [call]).

(** [fetchHmeList] of the effect on [props.client], up to its [await] and
    from there on. *)
Definition fetchHmeList_begin (s : t) : t :=
  issue Call_listHme (setIsFetching true (setHmeEmailsError None s)).

Definition fetchHmeList_end (pms : PremiumMailSettings) (s : t) : t :=
  let s' :=
    match listHme pms with
    | Returned result =>
        setFetchedHmeEmails (fun _ => Some (jsSort newestFirst (hmeEmails result))) s
    | Thrown e => setHmeEmailsError (Some e) s
    end in
  setIsFetching false s'.

Definition fetchHmeList (pms : PremiumMailSettings) (s : t) : t :=
  fetchHmeList_end pms (fetchHmeList_begin s).

(** [activationCallbackFactory(hmeEmail)()]; [isEqual] compares two emails
    field by field. *)
Definition activationCallbackFactory (hmeEmail : HmeEmail) (s : t) : t :=
  let newHmeEmail := toggled hmeEmail in
  setFetchedHmeEmails
    (fmap (M := option)
       (fmap (M := list)
          (fun item => if decide (item = hmeEmail) then newHmeEmail else item))) s.

(** [deletionCallbackFactory(hmeEmail)()] *)
Definition deletionCallbackFactory (hmeEmail : HmeEmail) (s : t) : t :=
  setFetchedHmeEmails
    (fmap (M := option) (filter (fun item => item <> hmeEmail))) s.

(** The [onChange] of the search box and the [onClick] of a label. *)
Definition onSearchChange (value : string) (s : t) : t :=
  setSelectedHmeIdx 0 (setSearchPrompt (Some value) s).

Definition onLabelClick (idx : nat) (s : t) : t :=
  setSelectedHmeIdx (Z.of_nat idx) s.

(** [onActivationClick] and [onDeletionClick] of the [HmeDetails] that shows
    [hme], with the callbacks it was given. *)
Definition onActivationClick (hme : HmeEmail) (activationCallback : t -> t)
    (pms : PremiumMailSettings) (s : t) : t :=
  let s1 := updateDetails (Details.setIsActivateSubmitting true) s in
  let s2 :=
    if isActive hme then issue (Call_deactivateHme (anonymousId hme)) s1
    else issue (Call_reactivateHme (anonymousId hme)) s1 in
  let answer :=
    if isActive hme then deactivateHme pms (anonymousId hme)
    else reactivateHme pms (anonymousId hme) in
  let s3 :=
    match answer with
    | Returned _ => activationCallback s2
    | Thrown e => updateDetails (Details.setError (Some e)) s2
    end in
  updateDetails (Details.setIsActivateSubmitting false) s3.

Definition onDeletionClick (hme : HmeEmail) (deletionCallback : t -> t)
    (pms : PremiumMailSettings) (s : t) : t :=
  let s1 := updateDetails (Details.setIsDeleteSubmitting true) s in
  let s2 := issue (Call_deleteHme (anonymousId hme)) s1 in
  let s3 :=
    match deleteHme pms (anonymousId hme) with
    | Returned _ => deletionCallback s2
    | Thrown e => updateDetails (Details.setError (Some e)) s2
    end in
  updateDetails (Details.setIsDeleteSubmitting false) s3.

(** What [resolveMainChildComponent] returns. *)
Inductive MainChild :=
| Spinner
| ErrorMessage (message : string)
| EmptyState
| Grid (grid : HmeListGrid).

Section Rendering.

Variable fuseSearch : string -> list HmeEmail -> list HmeEmail.

Definition resolveMainChildComponent (s : t) : MainChild :=
  if isFetching s then Spinner
  else if truthy (hmeEmailsError s) then ErrorMessage (default "" (hmeEmailsError s))
  else
    match fetchedHmeEmails s with
    | None | Some [] => EmptyState
    | Some fetched =>
        Grid (hmeListGrid fuseSearch (selectedHmeIdx s) (searchPrompt s) fetched)
    end.

(** One render of [HmeManager] after the other, as long as the render
    itself sets the selected index. *)
Fixpoint render (fuel : nat) (s : t) : option (t * MainChild) :=
  match fuel with
  | O => None
  | S fuel' =>
      match resolveMainChildComponent s with
      | Grid grid =>
          match setSelectedHmeIdxCall grid with
          | Some idx => render fuel' (setSelectedHmeIdx idx s)
          | None => Some (s, Grid grid)
          end
      | child => Some (s, child)
      end
  end.

(** The clicks on the buttons of the details panel that a render shows: the
    panel is the one of the selected email and receives the callbacks made
    for that email. *)
Definition clickActivation (pms : PremiumMailSettings) (child : MainChild) (s : t) : t :=
  match child with
  | Grid grid =>
      match hmeDetails grid with
      | Some hme => onActivationClick hme (activationCallbackFactory hme) pms s
      | None => s
      end
  | _ => s
  end.

(** The "Delete" button is rendered for a deactivated email only. *)
Definition clickDeletion (pms : PremiumMailSettings) (child : MainChild) (s : t) : t :=
  match child with
  | Grid grid =>
      match hmeDetails grid with
      | Some hme =>
          if isActive hme then s
          else onDeletionClick hme (deletionCallbackFactory hme) pms s
      | None => s
      end
  | _ => s
  end.

(** What can happen to a mounted [HmeManager]. *)
Inductive Happening :=
| FetchBegins
| FetchEnds (pms : PremiumMailSettings)
| SearchChanges (value : string)
| LabelClicked (idx : nat)
| ActivationClicked (pms : PremiumMailSettings)
| DeletionClicked (pms : PremiumMailSettings)
| Rendered.

Definition rendered (s : t) : t * MainChild :=
  default (s, resolveMainChildComponent s) (render 2 s).

Definition happen (h : Happening) (s : t) : t :=
  match h with
  | FetchBegins => fetchHmeList_begin s
  | FetchEnds pms => fetchHmeList_end pms s
  | SearchChanges value => onSearchChange value s
  | LabelClicked idx => onLabelClick idx s
  | ActivationClicked pms => clickActivation pms (rendered s).2 (rendered s).1
  | DeletionClicked pms => clickDeletion pms (rendered s).2 (rendered s).1
  | Rendered => (rendered s).1
  end.

Definition after (happenings : list Happening) (s : t) : t :=
  foldl (fun s h => happen h s) s happenings.

(** The email that a render hands to the details panel, if it renders the
    panel. *)
Definition panelEmail (child : MainChild) : option HmeEmail :=
  match child with
  | Grid grid => hmeDetails grid
  | _ => None
  end.

(** The effect of [HmeDetails] on [props.hme], after the render that follows
    a click on the activation button: it runs when the panel is handed another
    object than at the render before.  The activation callback replaces an
    entry by a new email that differs from it and leaves every other entry the
    object it was, so the panel is handed another object exactly when it is
    handed an email that differs. *)
Definition detailsEffect (before after : option HmeEmail) (s : t) : t :=
  if decide (after = before) then s
  else updateDetails Details.onHmeChange s.

(** A click on the activation button of the panel that a render shows,
    followed by the render that the state updates cause and by the effect of
    the panel. *)
Definition activationClickSettled (pms : PremiumMailSettings) (s : t) : t :=
  let before := rendered s in
  let clicked := clickActivation pms before.2 before.1 in
  let after := rendered clicked in
  detailsEffect (panelEmail before.2) (panelEmail after.2) after.1.

End Rendering.

End Manager.

(** The selected index is never below -1, and it is -1 only while a search
    prompt is set. *)
Definition indexInRange (s : Manager.t) : Prop :=
  -1 <= Manager.selectedHmeIdx s /\
  (Manager.selectedHmeIdx s = -1 -> truthy (Manager.searchPrompt s) = true).

(** ** [HmeGenerator] *)

Module Generator.

(** The [useState] cells of [HmeGenerator] and the calls issued so far. *)
Record t := mk {
  hmeEmail : option string;
  hmeError : option string;
  reservedHme : option HmeEmail;
  reserveError : option string;
  isEmailRefreshSubmitting : bool;
  isUseSubmitting : bool;
  tabHost : string;
  fwdToEmail : option string;
  note : option string;
  label : option string;
  calls : list PmsCall
}.

Definition initial : t :=
  mk None None None None false false "" None None None [].

Definition setHmeEmail (v : option string) (s : t) : t :=
  mk v (hmeError s) (reservedHme s) (reserveError s) (isEmailRefreshSubmitting s)
     (isUseSubmitting s) (tabHost s) (fwdToEmail s) (note s) (label s) (calls s).

Definition setHmeError (v : option string) (s : t) : t :=
  mk (hmeEmail s) v (reservedHme s) (reserveError s) (isEmailRefreshSubmitting s)
     (isUseSubmitting s) (tabHost s) (fwdToEmail s) (note s) (label s) (calls s).

Definition setReservedHme (v : option HmeEmail) (s : t) : t :=
  mk (hmeEmail s) (hmeError s) v (reserveError s) (isEmailRefreshSubmitting s)
     (isUseSubmitting s) (tabHost s) (fwdToEmail s) (note s) (label s) (calls s).

Definition setReserveError (v : option string) (s : t) : t :=
  mk (hmeEmail s) (hmeError s) (reservedHme s) v (isEmailRefreshSubmitting s)
     (isUseSubmitting s) (tabHost s) (fwdToEmail s) (note s) (label s) (calls s).

Definition setIsEmailRefreshSubmitting (v : bool) (s : t) : t :=
  mk (hmeEmail s) (hmeError s) (reservedHme s) (reserveError s) v
     (isUseSubmitting s) (tabHost s) (fwdToEmail s) (note s) (label s) (calls s).

Definition setIsUseSubmitting (v : bool) (s : t) : t :=
  mk (hmeEmail s) (hmeError s) (reservedHme s) (reserveError s)
     (isEmailRefreshSubmitting s) v (tabHost s) (fwdToEmail s) (note s) (label s)
     (calls s).

Definition setTabHost (v : string) (s : t) : t :=
  mk (hmeEmail s) (hmeError s) (reservedHme s) (reserveError s)
     (isEmailRefreshSubmitting s) (isUseSubmitting s) v (fwdToEmail s) (note s)
     (label s) (calls s).

Definition setFwdToEmail (v : option string) (s : t) : t :=
  mk (hmeEmail s) (hmeError s) (reservedHme s) (reserveError s)
     (isEmailRefreshSubmitting s) (isUseSubmitting s) (tabHost s) v (note s)
     (label s) (calls s).

Definition setNote (v : option string) (s : t) : t :=
  mk (hmeEmail s) (hmeError s) (reservedHme s) (reserveError s)
     (isEmailRefreshSubmitting s) (isUseSubmitting s) (tabHost s) (fwdToEmail s) v
     (label s) (calls s).

Definition setLabel (v : option string) (s : t) : t :=
  mk (hmeEmail s) (hmeError s) (reservedHme s) (reserveError s)
     (isEmailRefreshSubmitting s) (isUseSubmitting s) (tabHost s) (fwdToEmail s)
     (note s) v (calls s).

Definition issue (call : PmsCall) (s : t) : t :=
  mk (hmeEmail s) (hmeError s) (reservedHme s) (reserveError s)
     (isEmailRefreshSubmitting s) (isUseSubmitting s) (tabHost s) (fwdToEmail s)
     (note s) (label s) (calls s ++ [call]).

(** [fetchHmeList] of the first effect. *)
Definition fetchHmeList (pms : PremiumMailSettings) (s : t) : t :=
  let s1 := issue Call_listHme (setHmeError None s) in
  match listHme pms with
  | Returned result => setFwdToEmail (selectedForwardTo result) s1
  | Thrown e => setHmeError (Some e) s1
  end.

(** [fetchHmeEmail] of the second effect. *)
Definition fetchHmeEmail (pms : PremiumMailSettings) (s : t) : t :=
  let s1 := issue Call_generateHme
              (setIsEmailRefreshSubmitting true (setHmeError None s)) in
  let s2 :=
    match generateHme pms with
    | Returned address => setHmeEmail (Some address) s1
    | Thrown e => setHmeError (Some e) s1
    end in
  setIsEmailRefreshSubmitting false s2.

(** [getTabHost] with its [.catch(console.error)].  [tabs] is what
    [browser.tabs.query] resolved to, each tab given by its [url];
    [hostnameOf] is [new URL(tabUrl).hostname], which throws on a string that
    is not a URL. *)
Definition getTabHost (hostnameOf : string -> Outcome string)
    (tabs : list (option string)) (s : t) : t :=
  match tabs with
  | [] => s (* [tab.url] of [undefined] throws *)
  | tabUrl :: _ =>
      match tabUrl with
      | None => s
      | Some tabUrl =>
          match hostnameOf tabUrl with
          | Returned hostname => setLabel (Some hostname) (setTabHost hostname s)
          | Thrown _ => s
          end
      end
  end.

Definition onEmailRefreshClick (pms : PremiumMailSettings) (s : t) : t :=
  let s1 :=
    setReserveError None
      (setHmeError None (setReservedHme None (setIsEmailRefreshSubmitting true s))) in
  let s2 := issue Call_generateHme s1 in
  let s3 :=
    match generateHme pms with
    | Returned address => setHmeEmail (Some address) s2
    | Thrown e => setHmeError (Some e) s2
    end in
  setIsEmailRefreshSubmitting false s3.

Definition onUseSubmit (pms : PremiumMailSettings) (s : t) : t :=
  let s1 := setReserveError None (setReservedHme None (setIsUseSubmitting true s)) in
  let s2 :=
    match hmeEmail s with
    | Some address =>
        let sentLabel := orString (label s) (tabHost s) in
        let sentNote := orUndefined (note s) in
        let s' := issue (Call_reserveHme address sentLabel sentNote) s1 in
        match reserveHme pms address sentLabel sentNote with
        | Returned reserved =>
            setNote None (setLabel None (setReservedHme (Some reserved) s'))
        | Thrown e => setReserveError (Some e) s'
        end
    | None => s1
    end in
  setIsUseSubmitting false s2.

(** [isEmailRefreshSubmitting || hmeEmail == reservedHme?.hme]: the loose
    equality holds between two [undefined] and between two equal strings. *)
Definition isReservationFormDisabled (s : t) : bool :=
  isEmailRefreshSubmitting s
  || bool_decide (hmeEmail s = hme <$> reservedHme s).

(** The reservation form is rendered under [hmeEmail && ...]. *)
Definition showsReservationForm (s : t) : bool := truthy (hmeEmail s).

End Generator.

(** ** Sample screens and answers *)

(** A service that grants every call. *)
Definition grantingPms : PremiumMailSettings :=
  mkPremiumMailSettings
    (Returned (mkListHmeResult [shopEmail; newsEmail] (Some "me@example.com")))
    (Returned "elm.kite.2c@icloud.com")
    (fun address label note =>
       Returned (mkHmeEmail address label true "id-3" "me@example.com"
                            1700001000000 (default "" note)))
    (fun _ => Returned tt) (fun _ => Returned tt) (fun _ => Returned tt).

(** The management view with two emails fetched, the second one selected. *)
Definition sampleManager : Manager.t :=
  Manager.mk (Some [newsEmail; shopEmail]) None false 1 None Details.initial [].

(** A service that rejects every call. *)
Definition refusingPms : PremiumMailSettings :=
  mkPremiumMailSettings
    (Thrown "Error: request failed") (Thrown "Error: request failed")
    (fun _ _ _ => Thrown "Error: request failed")
    (fun _ => Thrown "Error: request failed")
    (fun _ => Thrown "Error: request failed")
    (fun _ => Thrown "Error: request failed").

(** The same view while its panel shows the error of an earlier click. *)
Definition sampleManagerAfterError : Manager.t :=
  Manager.mk (Some [newsEmail; shopEmail]) None false 1 None
             (Details.mk false false (Some "Error: request failed"))
             [Call_deactivateHme "id-1"].

(** The generator with an address generated and nothing typed. *)
Definition sampleGenerator : Generator.t :=
  Generator.mk (Some "elm.kite.2c@icloud.com") None None None false false ""
               (Some "me@example.com") None None [Call_listHme; Call_generateHme].

(** [new URL(url).hostname] on the one URL of the samples. *)
Definition sampleHostnameOf (url : string) : Outcome string :=
  if bool_decide (url = "https://shop.example.com/cart") then Returned "shop.example.com"
  else Thrown "TypeError: Invalid URL".

(** * Properties *)

Ltac unfold_async :=
  unfold catchDebug in *;
  unfold mbind, mret, Async_bind, Async_ret, bind, ret, throw, tryCatch,
    emit, modify, ask, getWorld in *.

Ltac unfold_handlers :=
  unfold validateSession, logOut in *;
  unfold ICloudClient.verify2faCode, ICloudClient.trustDevice,
    ICloudClient.accountLogin, ICloudClient.validateToken,
    ICloudClient.refreshSession, ICloudClient.logOut, ICloudClient.remoteLogOut,
    ICloudClient.authenticated, contextMenus_update,
    refreshSessionCallback, getBrowserStorageValue,
    setIsSubmitting, setError, setState, setSessionData in *.

Ltac run_async := unfold_handlers; unfold_async; cbn.

(** Brings a trace back to the form [trace w ++ [e1; ...; en]]. *)
Ltac step_trace := rewrite <- ?app_assoc; cbn [app].

(** ** The dispatcher *)

Lemma setState_state pr w next : state (exec (setState next) pr w) = next.
Proof. reflexivity. Qed.

Lemma setState_returns pr w next : outcome (setState next) pr w = Returned tt.
Proof. reflexivity. Qed.

Lemma setState_keeps_sessionData pr w next :
  sessionData (exec (setState next) pr w) = sessionData w /\
  storedSessionData (exec (setState next) pr w) = storedSessionData w.
Proof. split; reflexivity. Qed.

Lemma transitionToNextStateElement_total state set client :
  exists el, transitionToNextStateElement state set client = Returned el.
Proof. destruct state; eexists; reflexivity. Qed.

Lemma Popup_SignedOut w :
  state w = SignedOut ->
  Popup w = Returned (SignInForm
    (fun a => setState (STATE_MACHINE_TRANSITIONS SignedOut a)) popupClient).
Proof. intros H. unfold Popup. rewrite H. reflexivity. Qed.

Lemma Popup_SignedIn w :
  state w = SignedIn ->
  Popup w = Returned (TwoFaForm
    (fun a => setState (STATE_MACHINE_TRANSITIONS SignedIn a)) popupClient).
Proof. intros H. unfold Popup. rewrite H. reflexivity. Qed.

Lemma Popup_Verified w :
  state w = Verified ->
  Popup w = Returned (HmeGenerator
    (fun a => setState (STATE_MACHINE_TRANSITIONS Verified a)) popupClient).
Proof. intros H. unfold Popup. rewrite H. reflexivity. Qed.

Lemma Popup_VerifiedAndManaging w :
  state w = VerifiedAndManaging ->
  Popup w = Returned (HmeManager
    (fun a => setState (STATE_MACHINE_TRANSITIONS VerifiedAndManaging a)) popupClient).
Proof. intros H. unfold Popup. rewrite H. reflexivity. Qed.

(** C1. For each of the four phases the dispatcher returns the screen of
    that phase, and the callback it hands to the screen moves the phase along
    the documented edge for each action of the phase:
    SignedOut --SUCCESSFUL_SIGN_IN--> SignedIn,
    SignedIn --SUCCESSFUL_VERIFICATION--> Verified,
    SignedIn --SUCCESSFUL_SIGN_OUT--> SignedOut,
    Verified --MANAGE--> VerifiedAndManaging,
    Verified --SUCCESSFUL_SIGN_OUT--> SignedOut,
    VerifiedAndManaging --GENERATE--> Verified,
    VerifiedAndManaging --SUCCESSFUL_SIGN_OUT--> SignedOut;
    and for no value of the phase does the dispatcher reach its
    unhandled-phase branch. *)
Theorem transitionToNextStateElement_edges (pr : Provider) (w : World)
    (client : ICloudClient.t) :
  (exists callback,
     transitionToNextStateElement SignedOut setState client
       = Returned (SignInForm callback client) /\
     state (exec (callback SignedOutAction.SUCCESSFUL_SIGN_IN) pr w) = SignedIn) /\
  (exists callback,
     transitionToNextStateElement SignedIn setState client
       = Returned (TwoFaForm callback client) /\
     state (exec (callback SignedInAction.SUCCESSFUL_VERIFICATION) pr w) = Verified /\
     state (exec (callback SignedInAction.SUCCESSFUL_SIGN_OUT) pr w) = SignedOut) /\
  (exists callback,
     transitionToNextStateElement Verified setState client
       = Returned (HmeGenerator callback client) /\
     state (exec (callback VerifiedAction.MANAGE) pr w) = VerifiedAndManaging /\
     state (exec (callback VerifiedAction.SUCCESSFUL_SIGN_OUT) pr w) = SignedOut) /\
  (exists callback,
     transitionToNextStateElement VerifiedAndManaging setState client
       = Returned (HmeManager callback client) /\
     state (exec (callback VerifiedAndManagingAction.GENERATE) pr w) = Verified /\
     state (exec (callback VerifiedAndManagingAction.SUCCESSFUL_SIGN_OUT) pr w)
       = SignedOut) /\
  (forall (phase : PopupState) (reason : string),
     transitionToNextStateElement phase setState client <> Thrown reason).
Proof.
  repeat split.
  - eexists. split; [reflexivity|]. reflexivity.
  - eexists. repeat split; reflexivity.
  - eexists. repeat split; reflexivity.
  - eexists. repeat split; reflexivity.
  - intros phase reason.
    destruct (transitionToNextStateElement_total phase setState client) as [el ->].
    discriminate.
Qed.

(** ** The second-factor form *)


Lemma TwoFaForm_short_code pr w callback client code :
  String.length code <> 6%nat ->
  TwoFaForm_onFormSubmit callback client code pr w =
    (Returned tt,
     mkWorld (state w) (sessionData w) (storedSessionData w) false
       (Some "Please fill in all of the 6 digits of the code.") (trace w)).
Proof.
  intros Hlen. unfold TwoFaForm_onFormSubmit.
  rewrite bool_decide_eq_false_2 by assumption. reflexivity.
Qed.

Lemma TwoFaForm_verify_fails pr w callback client code :
  String.length code = 6%nat ->
  verifyAccepted pr w code = false ->
  TwoFaForm_onFormSubmit callback client code pr w =
    (Returned tt,
     mkWorld (state w) (sessionData w) (storedSessionData w) false
       (Some failed2fa) (trace w ++ [Call_verify2faCode code])).
Proof.
  unfold verifyAccepted. intros Hlen Hv. unfold TwoFaForm_onFormSubmit.
  rewrite bool_decide_eq_true_2 by assumption. run_async.
  rewrite bool_decide_eq_true_2 by assumption. rewrite Hv. reflexivity.
Qed.

Lemma TwoFaForm_trust_fails pr w callback client code :
  String.length code = 6%nat ->
  verifyAccepted pr w code = true ->
  deviceTrusted pr w code = false ->
  TwoFaForm_onFormSubmit callback client code pr w =
    (Returned tt,
     mkWorld (state w) (sessionData w) (storedSessionData w) false
       (Some failed2fa) (trace w ++ [Call_verify2faCode code; Call_trustDevice])).
Proof.
  unfold verifyAccepted, deviceTrusted. intros Hlen Hv Ht.
  unfold TwoFaForm_onFormSubmit.
  rewrite bool_decide_eq_true_2 by assumption. run_async.
  rewrite bool_decide_eq_true_2 by assumption. rewrite Hv. cbn.
  step_trace. rewrite Ht. reflexivity.
Qed.

Lemma TwoFaForm_login_fails pr w callback client code :
  String.length code = 6%nat ->
  verifyAccepted pr w code = true ->
  deviceTrusted pr w code = true ->
  loginAnswer pr w code = None ->
  TwoFaForm_onFormSubmit callback client code pr w =
    (Returned tt,
     mkWorld (state w) (sessionData w) (storedSessionData w) false
       (Some failed2fa)
       (trace w ++ [Call_verify2faCode code; Call_trustDevice; Call_accountLogin])).
Proof.
  unfold verifyAccepted, deviceTrusted, loginAnswer. intros Hlen Hv Ht Hl.
  unfold TwoFaForm_onFormSubmit.
  rewrite bool_decide_eq_true_2 by assumption. run_async.
  rewrite bool_decide_eq_true_2 by assumption. rewrite Hv. cbn.
  step_trace. rewrite Ht. cbn. step_trace. rewrite Hl. reflexivity.
Qed.

Lemma TwoFaForm_all_succeed pr w code markers :
  state w = SignedIn ->
  String.length code = 6%nat ->
  verifyAccepted pr w code = true ->
  deviceTrusted pr w code = true ->
  loginAnswer pr w code = Some markers ->
  user_submits2faCode w code pr w =
    (Returned tt,
     let data := {| tokens := tokens (sessionData w);
                    verifiedMarkers := Some markers |} in
     mkWorld Verified data data false None
       (trace w ++ [Call_verify2faCode code; Call_trustDevice; Call_accountLogin;
                    Do_setState Verified])).
Proof.
  unfold verifyAccepted, deviceTrusted, loginAnswer. intros Hs Hlen Hv Ht Hl.
  unfold user_submits2faCode. rewrite (Popup_SignedIn w Hs).
  unfold TwoFaForm_onFormSubmit.
  rewrite bool_decide_eq_true_2 by assumption. run_async.
  rewrite bool_decide_eq_true_2 by assumption. rewrite Hv. cbn.
  step_trace. rewrite Ht. cbn. step_trace. rewrite Hl. cbn. step_trace.
  reflexivity.
Qed.

Lemma issued_app {A} (c : Async A) pr w o st sd ssd sub err evs :
  c pr w = (o, mkWorld st sd ssd sub err (trace w ++ evs)) ->
  issued c pr w = evs.
Proof.
  intros H. unfold issued, exec. rewrite H. cbn. apply drop_app_length.
Qed.

Lemma issued_nil {A} (c : Async A) pr w o st sd ssd sub err :
  c pr w = (o, mkWorld st sd ssd sub err (trace w)) ->
  issued c pr w = [].
Proof.
  intros H. unfold issued, exec. rewrite H. cbn. apply drop_all.
Qed.

(** C3. A submission of a 6-character code that the provider accepts but
    that then fails at [trustDevice], or later at [accountLogin], leaves the
    session data (the popup's copy and the persisted one) equal to what it was
    before the submission; nothing is thrown to the caller, the phase does not
    move, and the user sees the one 2FA failure message. *)
Theorem TwoFaForm_failure_keeps_sessionData (pr : Provider) (w : World)
    (callback : TransitionCallback SignedInAction.t) (client : ICloudClient.t)
    (code : string) :
  String.length code = 6%nat ->
  verifyAccepted pr w code = true ->
  deviceTrusted pr w code = false \/
    (deviceTrusted pr w code = true /\ loginAnswer pr w code = None) ->
  let w' := exec (TwoFaForm_onFormSubmit callback client code) pr w in
  outcome (TwoFaForm_onFormSubmit callback client code) pr w = Returned tt /\
  sessionData w' = sessionData w /\
  storedSessionData w' = storedSessionData w /\
  state w' = state w /\
  error w' = Some failed2fa /\
  isSubmitting w' = false.
Proof.
  intros Hlen Hv [Ht | [Ht Hl]]; unfold exec, outcome.
  - rewrite (TwoFaForm_trust_fails pr w callback client code Hlen Hv Ht).
    repeat split.
  - rewrite (TwoFaForm_login_fails pr w callback client code Hlen Hv Ht Hl).
    repeat split.
Qed.

(** C4. Submitting the 2FA form with a code whose length is not 6 issues
    nothing at all, so none of [verify2faCode], [trustDevice], [accountLogin]
    is called; the error shown is "Please fill in all of the 6 digits of the
    code." and the phase stays [SignedIn]. *)
Theorem TwoFaForm_short_code_no_call (pr : Provider) (w : World) (code : string) :
  state w = SignedIn ->
  String.length code <> 6%nat ->
  let w' := exec (user_submits2faCode w code) pr w in
  issued (user_submits2faCode w code) pr w = [] /\
  trace w' = trace w /\
  error w' = Some "Please fill in all of the 6 digits of the code." /\
  state w' = SignedIn /\
  sessionData w' = sessionData w /\
  storedSessionData w' = storedSessionData w.
Proof.
  intros Hs Hlen.
  assert (Hrun := TwoFaForm_short_code pr w
    (fun a => setState (STATE_MACHINE_TRANSITIONS SignedIn a)) popupClient code Hlen).
  unfold user_submits2faCode. rewrite (Popup_SignedIn w Hs).
  split; [exact (issued_nil _ _ _ _ _ _ _ _ _ Hrun)|].
  unfold exec. rewrite Hrun. cbn. repeat split. assumption.
Qed.

(** C5. On a submission of a 6-character code in phase [SignedIn]:
    [trustDevice] is issued only when [verify2faCode] succeeded and
    [accountLogin] only when [trustDevice] succeeded as well; and when all
    three succeed, exactly [verify2faCode], [trustDevice], [accountLogin]
    are issued in that order, followed by the transition, after which the
    phase is [Verified] and the client is authenticated. *)
Theorem TwoFaForm_success_order (pr : Provider) (w : World) (code : string) :
  state w = SignedIn ->
  String.length code = 6%nat ->
  let run := user_submits2faCode w code in
  let w' := exec run pr w in
  (In Call_trustDevice (issued run pr w) -> verifyAccepted pr w code = true) /\
  (In Call_accountLogin (issued run pr w) ->
     verifyAccepted pr w code = true /\ deviceTrusted pr w code = true) /\
  (forall markers,
     verifyAccepted pr w code = true ->
     deviceTrusted pr w code = true ->
     loginAnswer pr w code = Some markers ->
     issued run pr w =
       [Call_verify2faCode code; Call_trustDevice; Call_accountLogin;
        Do_setState Verified] /\
     state w' = Verified /\
     verifiedMarkers (sessionData w') = Some markers /\
     outcome (ICloudClient.authenticated popupClient) pr w' = Returned true /\
     storedSessionData w' = sessionData w' /\
     error w' = None).
Proof.
  intros Hs Hlen run w'.
  assert (Hfail : forall evs,
    user_submits2faCode w code pr w =
      (Returned tt, mkWorld (state w) (sessionData w) (storedSessionData w) false
                      (Some failed2fa) (trace w ++ evs)) ->
    issued run pr w = evs).
  { intros evs H. exact (issued_app _ _ _ _ _ _ _ _ _ _ H). }
  assert (Hrun : user_submits2faCode w code
                 = TwoFaForm_onFormSubmit
                     (fun a => setState (STATE_MACHINE_TRANSITIONS SignedIn a))
                     popupClient code).
  { unfold user_submits2faCode. rewrite (Popup_SignedIn w Hs). reflexivity. }
  repeat split.
  - destruct (verifyAccepted pr w code) eqn:Hv; [reflexivity|].
    rewrite (Hfail [Call_verify2faCode code]).
    + cbn. intros [H | []]. discriminate.
    + rewrite Hrun. apply TwoFaForm_verify_fails; assumption.
  - destruct (verifyAccepted pr w code) eqn:Hv; [reflexivity|].
    rewrite (Hfail [Call_verify2faCode code]) in H.
    + cbn in H. destruct H as [H | []]. discriminate.
    + rewrite Hrun. apply TwoFaForm_verify_fails; assumption.
  - destruct (verifyAccepted pr w code) eqn:Hv.
    + destruct (deviceTrusted pr w code) eqn:Ht; [reflexivity|].
      rewrite (Hfail [Call_verify2faCode code; Call_trustDevice]) in H.
      * cbn in H. destruct H as [H | [H | []]]; discriminate.
      * rewrite Hrun. apply TwoFaForm_trust_fails; assumption.
    + rewrite (Hfail [Call_verify2faCode code]) in H.
      * cbn in H. destruct H as [H | []]. discriminate.
      * rewrite Hrun. apply TwoFaForm_verify_fails; assumption.
  - eapply issued_app. apply TwoFaForm_all_succeed; eassumption.
  - unfold w', exec, run. erewrite TwoFaForm_all_succeed by eassumption. reflexivity.
  - unfold w', exec, run. erewrite TwoFaForm_all_succeed by eassumption. reflexivity.
  - unfold w', exec, run. erewrite TwoFaForm_all_succeed by eassumption. reflexivity.
  - unfold w', exec, run. erewrite TwoFaForm_all_succeed by eassumption. reflexivity.
  - unfold w', exec, run. erewrite TwoFaForm_all_succeed by eassumption. reflexivity.
Qed.

(** ** Signing out *)

#[local] Arguments logOutEvents : simpl never.

Lemma logOut_run pr w client :
  logOut client pr w =
    (Returned tt,
     mkWorld (state w) EMPTY_SESSION_DATA EMPTY_SESSION_DATA (isSubmitting w) (error w)
       (trace w ++ logOutEvents pr (trace w))).
Proof.
  unfold logOutEvents, remoteLogOutEvents, contextMenuEvents. run_async.
  destruct (remoteLogOutSucceeds pr (trace w ++ [Call_remoteLogOut])) eqn:Hr; cbn;
    step_trace.
  - destruct (contextMenuUpdateSucceeds pr _) eqn:Hm; cbn; step_trace; reflexivity.
  - destruct (contextMenuUpdateSucceeds pr _) eqn:Hm; cbn; step_trace; reflexivity.
Qed.

Lemma SignOutButton_onClick_run pr w client (callback : TransitionCallback unit) :
  callback = (fun _ => setState SignedOut) ->
  SignOutButton_onClick callback client pr w =
    (Returned tt,
     mkWorld SignedOut EMPTY_SESSION_DATA EMPTY_SESSION_DATA (isSubmitting w) (error w)
       (trace w ++ logOutEvents pr (trace w) ++ [Do_setState SignedOut])).
Proof.
  intros ->. unfold SignOutButton_onClick.
  unfold mbind at 1, Async_bind at 1, bind at 1. rewrite logOut_run.
  unfold setState, mbind, Async_bind, bind, emit, modify.
  cbn [state sessionData storedSessionData isSubmitting error trace].
  rewrite <- app_assoc. reflexivity.
Qed.

(** The sign-out button of a screen the popup renders runs [logOut] and then
    the transition of the phase the screen was rendered for. *)
Lemma Popup_signOutButton w el click :
  Popup w = Returned el ->
  signOutButton el = Some click ->
  state w <> SignedOut /\
  click = SignOutButton_onClick (fun _ => setState SignedOut) popupClient.
Proof.
  unfold Popup. destruct (state w) eqn:Hs; cbn; intros [= <-]; cbn; intros [= <-];
    split; (discriminate || reflexivity).
Qed.

Lemma Popup_signOutButton_None w el :
  Popup w = Returned el ->
  (signOutButton el = None <-> state w = SignedOut).
Proof.
  unfold Popup. destruct (state w) eqn:Hs; cbn; intros [= <-]; cbn;
    split; (discriminate || reflexivity).
Qed.

Lemma logOutEvents_clear pr before : In Do_clearSessionData (logOutEvents pr before).
Proof. unfold logOutEvents. apply in_or_app. right. left. reflexivity. Qed.

(** C6. The screen the popup renders offers a sign-out button exactly when
    the phase is not [SignedOut]; and pressing it, in whatever world, returns
    normally with the session data cleared (the popup's copy and the
    persisted one) and the phase [SignedOut]: the clear is issued, and the
    last thing issued is the transition to [SignedOut]. *)
Theorem signOut_offered_and_resets_both (pr : Provider) (w current : World)
    (el : ReactElement) :
  Popup w = Returned el ->
  (signOutButton el = None <-> state w = SignedOut) /\
  (forall click, signOutButton el = Some click ->
     let w' := exec click pr current in
     outcome click pr current = Returned tt /\
     sessionData w' = EMPTY_SESSION_DATA /\
     storedSessionData w' = EMPTY_SESSION_DATA /\
     state w' = SignedOut /\
     In Do_clearSessionData (issued click pr current) /\
     last (issued click pr current) = Some (Do_setState SignedOut)).
Proof.
  intros Hel. split; [exact (Popup_signOutButton_None w el Hel)|].
  intros click Hclick.
  destruct (Popup_signOutButton w el click Hel Hclick) as [_ ->].
  assert (Hrun := SignOutButton_onClick_run pr current popupClient _ eq_refl).
  unfold exec, outcome. rewrite Hrun. cbn. repeat split.
  - rewrite (issued_app _ _ _ _ _ _ _ _ _ _ Hrun).
    apply in_or_app. left. apply logOutEvents_clear.
  - rewrite (issued_app _ _ _ _ _ _ _ _ _ _ Hrun). apply last_snoc.
Qed.

(** C7. [logOut] never throws and always ends with the session data
    cleared, whether the remote invalidation succeeds or fails; the remote
    call is issued first and the local clear follows it in both cases, a
    failure being logged in between and nowhere else visible. *)
Theorem logOut_swallows_remote_failure (pr : Provider) (w : World)
    (client : ICloudClient.t) :
  let w' := exec (logOut client) pr w in
  outcome (logOut client) pr w = Returned tt /\
  sessionData w' = EMPTY_SESSION_DATA /\
  storedSessionData w' = EMPTY_SESSION_DATA /\
  state w' = state w /\
  error w' = error w /\
  (remoteLogOutSucceeds pr (trace w ++ [Call_remoteLogOut]) = false ->
   exists rest,
     issued (logOut client) pr w =
       Call_remoteLogOut :: Log_debug "logout request failed"
         :: Do_clearSessionData :: rest) /\
  (remoteLogOutSucceeds pr (trace w ++ [Call_remoteLogOut]) = true ->
   exists rest,
     issued (logOut client) pr w =
       Call_remoteLogOut :: Do_clearSessionData :: rest).
Proof.
  assert (Hrun := logOut_run pr w client).
  unfold exec, outcome. rewrite Hrun. cbn. repeat split.
  - intros Hr. rewrite (issued_app _ _ _ _ _ _ _ _ _ _ Hrun).
    unfold logOutEvents at 1, remoteLogOutEvents at 1. rewrite Hr.
    eexists. reflexivity.
  - intros Hr. rewrite (issued_app _ _ _ _ _ _ _ _ _ _ Hrun).
    unfold logOutEvents at 1, remoteLogOutEvents at 1. rewrite Hr.
    eexists. reflexivity.
Qed.

(** C9. Pressing the sign-out button of a rendered screen twice in a row,
    from any world, leaves what pressing it once leaves: the empty session
    data and the phase [SignedOut]; both presses return normally. *)
Theorem signOut_twice_as_once (pr : Provider) (w current : World)
    (el : ReactElement) (click : Async unit) :
  Popup w = Returned el ->
  signOutButton el = Some click ->
  let once := exec click pr current in
  let twice := exec click pr once in
  outcome click pr current = Returned tt /\
  outcome click pr once = Returned tt /\
  observable twice = observable once /\
  sessionData twice = EMPTY_SESSION_DATA /\
  storedSessionData twice = EMPTY_SESSION_DATA /\
  state twice = SignedOut.
Proof.
  intros Hel Hclick.
  destruct (Popup_signOutButton w el click Hel Hclick) as [_ ->].
  cbn zeta. unfold exec, outcome, observable.
  rewrite (SignOutButton_onClick_run pr current) by reflexivity.
  cbn [fst snd]. rewrite SignOutButton_onClick_run by reflexivity.
  cbn [fst snd state sessionData storedSessionData isSubmitting error].
  repeat split.
Qed.

(** ** Revalidation on activation *)

Lemma validateSession_unauthenticated pr w :
  verifiedMarkers (sessionData w) = None ->
  validateSession pr w = (Returned tt, w).
Proof.
  intros Hm. run_async. rewrite Hm. reflexivity.
Qed.

Lemma validateSession_valid pr w :
  is_Some (verifiedMarkers (sessionData w)) ->
  tokenIsValid pr (trace w ++ [Call_validateToken]) (sessionData w) = true ->
  validateSession pr w =
    (Returned tt,
     mkWorld (state w) (sessionData w) (storedSessionData w) (isSubmitting w)
       (error w) (trace w ++ [Call_validateToken])).
Proof.
  intros Hm Hv. unfold validateSession, ICloudClient.authenticated.
  unfold_async. cbn. rewrite bool_decide_eq_true_2 by assumption.
  run_async. rewrite Hv. reflexivity.
Qed.

Lemma validateSession_invalid pr w :
  is_Some (verifiedMarkers (sessionData w)) ->
  tokenIsValid pr (trace w ++ [Call_validateToken]) (sessionData w) = false ->
  validateSession pr w =
    (Returned tt,
     mkWorld SignedOut EMPTY_SESSION_DATA EMPTY_SESSION_DATA (isSubmitting w) (error w)
       (trace w ++ Call_validateToken
          :: logOutEvents pr (trace w ++ [Call_validateToken])
          ++ [Do_setState SignedOut])).
Proof.
  intros Hm Hv. unfold validateSession, ICloudClient.authenticated.
  unfold mbind at 1, Async_bind at 1, bind at 1. unfold_async. cbn.
  rewrite bool_decide_eq_true_2 by assumption.
  unfold ICloudClient.validateToken. unfold_async. cbn. rewrite Hv.
  match goal with
  | |- context [logOut ?c ?p ?x] => rewrite (logOut_run p x c)
  end.
  unfold setState. unfold_async.
  cbn [state sessionData storedSessionData isSubmitting error trace].
  step_trace. reflexivity.
Qed.

(** The forced sign-out changes the session data, which makes React run the
    effect once more; that run finds no authenticated session and does
    nothing. *)
Lemma validateSession_settles pr w :
  is_Some (verifiedMarkers (sessionData w)) ->
  tokenIsValid pr (trace w ++ [Call_validateToken]) (sessionData w) = false ->
  let w' := exec validateSession pr w in
  validateSession pr w' = (Returned tt, w').
Proof.
  intros Hm Hv w'. apply validateSession_unauthenticated.
  unfold w', exec. rewrite (validateSession_invalid pr w Hm Hv). reflexivity.
Qed.

(** C2, as stated, fails: a session that is present but carries no
    verification markers is not revalidated.  With such a session, a provider
    that would reject the token and the persisted phase [Verified], the pass
    issues no [validateToken] and leaves the phase [Verified]. *)
Lemma validateSession_skips_present_session :
  ~ (forall (pr : Provider) (w : World),
       present (sessionData w) = true ->
       In Call_validateToken (issued validateSession pr w) /\
       (tokenIsValid pr (trace w ++ [Call_validateToken]) (sessionData w) = false ->
        state (exec validateSession pr w) = SignedOut)).
Proof.
  intros claim.
  destruct (claim rejectingProvider (worldWith Verified unverifiedSessionData))
    as [Hcall _].
  - vm_compute. reflexivity.
  - vm_compute in Hcall. exact Hcall.
Qed.

(** C2, amended.  A run of the effect never throws.  With a session that is
    not authenticated, present or not, it calls nothing and leaves the phase,
    the session data and everything else as they were.  With a session that
    is authenticated, [validateToken] is the first call issued; if it fails,
    the run performs [logOut] and then sets the phase to [SignedOut] whatever
    the persisted phase was, leaving the session data cleared; if it succeeds
    the run changes nothing. *)
Theorem validateSession_gated_by_authenticated (pr : Provider) (w : World) :
  let w' := exec validateSession pr w in
  let valid := tokenIsValid pr (trace w ++ [Call_validateToken]) (sessionData w) in
  outcome validateSession pr w = Returned tt /\
  (verifiedMarkers (sessionData w) = None ->
     w' = w /\
     issued validateSession pr w = []) /\
  (is_Some (verifiedMarkers (sessionData w)) ->
     head (issued validateSession pr w) = Some Call_validateToken /\
     (valid = false ->
        state w' = SignedOut /\
        sessionData w' = EMPTY_SESSION_DATA /\
        storedSessionData w' = EMPTY_SESSION_DATA /\
        issued validateSession pr w =
          Call_validateToken :: logOutEvents pr (trace w ++ [Call_validateToken])
            ++ [Do_setState SignedOut]) /\
     (valid = true ->
        observable w' = observable w /\
        issued validateSession pr w = [Call_validateToken])).
Proof.
  intros w' valid.
  destruct (verifiedMarkers (sessionData w)) as [markers|] eqn:Hmarkers.
  - assert (Hm : is_Some (verifiedMarkers (sessionData w)))
      by (rewrite Hmarkers; eexists; reflexivity).
    destruct valid eqn:Hv; unfold valid in Hv.
    + assert (Hrun := validateSession_valid pr w Hm Hv).
      unfold w', exec, outcome. rewrite Hrun. cbn.
      rewrite (issued_app _ _ _ _ _ _ _ _ _ _ Hrun).
      split; [reflexivity|]. split; [discriminate|]. intros _.
      repeat split; discriminate.
    + assert (Hrun := validateSession_invalid pr w Hm Hv).
      unfold w', exec, outcome. rewrite Hrun. cbn.
      rewrite (issued_app _ _ _ _ _ _ _ _ _ _ Hrun).
      split; [reflexivity|]. split; [discriminate|]. intros _.
      repeat split; discriminate.
  - assert (Hrun := validateSession_unauthenticated pr w Hmarkers).
    unfold w', exec, outcome, issued, exec. rewrite Hrun. cbn.
    split; [reflexivity|]. split.
    + intros _. split; [reflexivity | apply drop_all].
    + intros [markers Hsome]. discriminate Hsome.
Qed.

(** ** The sign-in response *)

Lemma SignInForm_onMessage_other pr w callback client message :
  type message <> LogInResponse ->
  SignInForm_onMessage callback client message pr w = (Returned tt, w).
Proof.
  intros Ht. unfold SignInForm_onMessage.
  rewrite bool_decide_eq_true_2 by assumption. reflexivity.
Qed.

Lemma SignInForm_onMessage_failure pr w callback client act :
  SignInForm_onMessage callback client
      (mkMessage LogInResponse (mkLogInResponseData false act)) pr w =
    (Returned tt,
     mkWorld (state w) (sessionData w) (storedSessionData w) false
       (Some "Failed to sign in. Please try again.") (trace w)).
Proof. reflexivity. Qed.

Lemma SignInForm_onMessage_success pr w :
  SignInForm_onMessage
      (fun a => setState (STATE_MACHINE_TRANSITIONS SignedOut a)) popupClient
      (mkMessage LogInResponse
         (mkLogInResponseData true (Some SignedOutAction.SUCCESSFUL_SIGN_IN))) pr w =
    (Returned tt,
     mkWorld SignedIn (storedSessionData w) (storedSessionData w) false (error w)
       (trace w ++ [Do_refreshSession; Do_setState SignedIn])).
Proof.
  unfold SignInForm_onMessage. cbn [type data success action].
  rewrite bool_decide_eq_false_2 by (intros H; apply H; reflexivity).
  unfold popupClient. run_async. step_trace. reflexivity.
Qed.

(** A successful response that names no action refreshes the session and
    applies no transition. *)
Lemma SignInForm_onMessage_success_without_action pr w callback :
  SignInForm_onMessage callback popupClient
      (mkMessage LogInResponse (mkLogInResponseData true None)) pr w =
    (Returned tt,
     mkWorld (state w) (storedSessionData w) (storedSessionData w) false (error w)
       (trace w ++ [Do_refreshSession])).
Proof.
  unfold SignInForm_onMessage. cbn [type data success action].
  rewrite bool_decide_eq_false_2 by (intros H; apply H; reflexivity).
  unfold popupClient. run_async. reflexivity.
Qed.

(** C8. In phase [SignedOut], once the background sign-in has written
    non-empty session data to the storage, the arrival of the successful
    sign-in response with action SUCCESSFUL_SIGN_IN first refreshes the
    session and then applies the action: the popup's session data is what the
    background wrote, hence not empty, and the phase is [SignedIn].  The
    arrival of a failed response shows the sign-in error, issues nothing and
    leaves the phase and the session data as they were. *)
Theorem SignInForm_response (pr : Provider) (w0 : World)
    (written : ICloudClientSessionData) :
  state w0 = SignedOut ->
  present written = true ->
  let w := backgroundSignIn written w0 in
  let succeeded := mkMessage LogInResponse
    (mkLogInResponseData true (Some SignedOutAction.SUCCESSFUL_SIGN_IN)) in
  let w' := exec (user_receivesMessage w succeeded) pr w in
  outcome (user_receivesMessage w succeeded) pr w = Returned tt /\
  issued (user_receivesMessage w succeeded) pr w
    = [Do_refreshSession; Do_setState SignedIn] /\
  state w' = SignedIn /\
  sessionData w' = written /\
  present (sessionData w') = true /\
  (forall act,
     let failed := mkMessage LogInResponse (mkLogInResponseData false act) in
     let w'' := exec (user_receivesMessage w failed) pr w in
     error w'' = Some "Failed to sign in. Please try again." /\
     issued (user_receivesMessage w failed) pr w = [] /\
     state w'' = SignedOut /\
     sessionData w'' = sessionData w0 /\
     storedSessionData w'' = written).
Proof.
  intros Hs Hw w succeeded w'.
  assert (Hel : forall m, user_receivesMessage w m =
            SignInForm_onMessage
              (fun a => setState (STATE_MACHINE_TRANSITIONS SignedOut a)) popupClient m).
  { intros m. unfold user_receivesMessage. rewrite (Popup_SignedOut w); [reflexivity|].
    exact Hs. }
  assert (Hrun := SignInForm_onMessage_success pr w).
  repeat split.
  - unfold outcome. rewrite Hel.
    etransitivity; [apply (f_equal fst Hrun)|]. reflexivity.
  - rewrite Hel. exact (issued_app _ _ _ _ _ _ _ _ _ _ Hrun).
  - unfold w', exec. rewrite Hel.
    etransitivity; [apply (f_equal (fun r => state (snd r)) Hrun)|]. reflexivity.
  - unfold w', exec. rewrite Hel.
    etransitivity; [apply (f_equal (fun r => sessionData (snd r)) Hrun)|]. reflexivity.
  - unfold w', exec. rewrite Hel.
    etransitivity;
      [apply (f_equal (fun r => present (sessionData (snd r))) Hrun)|]. exact Hw.
  - unfold exec. rewrite Hel. reflexivity.
  - rewrite Hel. eapply issued_nil. apply SignInForm_onMessage_failure.
  - unfold exec. rewrite Hel. cbn. exact Hs.
  - unfold exec. rewrite Hel. reflexivity.
  - unfold exec. rewrite Hel. reflexivity.
Qed.

(** [SignInForm] registers its listener in an effect without dependencies,
    so every render adds one more; when a response arrives each of them
    runs.  A further listener leaves what the first one left. *)
Lemma SignInForm_onMessage_again pr w :
  let listener := SignInForm_onMessage
    (fun a => setState (STATE_MACHINE_TRANSITIONS SignedOut a)) popupClient
    (mkMessage LogInResponse
       (mkLogInResponseData true (Some SignedOutAction.SUCCESSFUL_SIGN_IN))) in
  observable (exec listener pr (exec listener pr w)) = observable (exec listener pr w).
Proof.
  cbn zeta. unfold exec. rewrite (SignInForm_onMessage_success pr w). cbn [snd].
  rewrite SignInForm_onMessage_success. reflexivity.
Qed.

(** ** The selected email of the management view *)

Section HmeManagerProperties.

Variable fuseSearch : string -> list HmeEmail -> list HmeEmail.

Lemma jsIndex_in_range {A} (l : list A) (i : Z) :
  0 <= i < jsLength l -> is_Some (jsIndex l i).
Proof.
  unfold jsIndex, jsLength. intros [Hlo Hhi].
  destruct (Z.ltb_spec i 0) as [Hneg | _]; [lia|].
  apply lookup_lt_is_Some. lia.
Qed.

Lemma jsIndex_out_of_range {A} (l : list A) (i : Z) :
  i < 0 \/ jsLength l <= i -> jsIndex l i = None.
Proof.
  unfold jsIndex, jsLength. intros Hout.
  destruct (Z.ltb_spec i 0) as [Hneg | Hpos]; [reflexivity|].
  apply lookup_ge_None. lia.
Qed.

Lemma jsLength_nil_iff {A} (l : list A) : jsLength l = 0 <-> l = [].
Proof.
  unfold jsLength. destruct l; cbn; split; (reflexivity || discriminate || lia).
Qed.

(** The list that is displayed does not depend on the selected index. *)
Lemma displayed_index_irrelevant i j prompt fetched :
  displayed (hmeListGrid fuseSearch i prompt fetched)
  = displayed (hmeListGrid fuseSearch j prompt fetched).
Proof. reflexivity. Qed.

Lemma hmeListGrid_call i prompt fetched :
  setSelectedHmeIdxCall (hmeListGrid fuseSearch i prompt fetched) =
    if i >=? jsLength (displayed (hmeListGrid fuseSearch i prompt fetched))
    then Some (jsLength (displayed (hmeListGrid fuseSearch i prompt fetched)) - 1)
    else None.
Proof. reflexivity. Qed.

Lemma hmeListGrid_selected i prompt fetched :
  selectedHmeEmail (hmeListGrid fuseSearch i prompt fetched)
  = jsIndex (displayed (hmeListGrid fuseSearch i prompt fetched)) i /\
  hmeDetails (hmeListGrid fuseSearch i prompt fetched)
  = selectedHmeEmail (hmeListGrid fuseSearch i prompt fetched).
Proof. split; reflexivity. Qed.

(** C10, as stated, fails: a selected index of -1, which an empty search
    result leaves behind, is not reset when the displayed list is non-empty,
    and then no email is selected and no details panel is rendered. *)
Lemma hmeListGrid_nonempty_without_selection :
  ~ (forall (search : string -> list HmeEmail -> list HmeEmail)
            (idx : Z) (prompt : option string) (fetched : list HmeEmail),
       displayed (hmeListGrid search idx prompt fetched) <> [] ->
       exists st' grid e,
         renderUntilStable search 2 (mkManagerState fetched idx prompt)
           = Some (st', grid) /\
         selectedHmeEmail grid = Some e /\ hmeDetails grid = Some e).
Proof.
  intros claim.
  destruct (claim substringSearch (-1) (Some "news") [shopEmail; newsEmail])
    as (st' & grid & e & Hrun & Hsel & _).
  - vm_compute. discriminate.
  - vm_compute in Hrun. injection Hrun as <- <-. discriminate Hsel.
Qed.

(** The index -1 of the counterexample is what the popup itself produces:
    searching for "news" while only the shop email is fetched empties the
    list and sets the index to -1; when the list is fetched again and now
    holds a match, the list shows it with nothing selected. *)
Example hmeListGrid_index_left_at_minus_one :
  let st0 := mkManagerState [shopEmail] 0 None in
  let st1 := onSearchChange "news" st0 in
  exists st2 grid2,
    renderUntilStable substringSearch 2 st1 = Some (st2, grid2) /\
    displayed grid2 = [] /\ selectedHmeIdx st2 = -1 /\
    let st3 := setFetchedHmeEmails [shopEmail; newsEmail] st2 in
    exists grid3,
      renderUntilStable substringSearch 2 st3 = Some (st3, grid3) /\
      displayed grid3 = [newsEmail] /\
      selectedHmeEmail grid3 = None /\ hmeDetails grid3 = None.
Proof.
  cbn zeta. do 2 eexists. split; [vm_compute; reflexivity|].
  split; [reflexivity|]. split; [reflexivity|].
  eexists. split; [vm_compute; reflexivity|]. repeat split.
Qed.

Lemma renderUntilStable_two_passes i prompt fetched :
  let shown := displayed (hmeListGrid fuseSearch i prompt fetched) in
  renderUntilStable fuseSearch 2 (mkManagerState fetched i prompt) =
    if i >=? jsLength shown
    then Some (mkManagerState fetched (jsLength shown - 1) prompt,
               hmeListGrid fuseSearch (jsLength shown - 1) prompt fetched)
    else Some (mkManagerState fetched i prompt,
               hmeListGrid fuseSearch i prompt fetched).
Proof.
  cbv zeta. unfold renderUntilStable, renderPass, applyCall, hmeListGrid.
  cbv zeta.
  cbn [selectedHmeIdx searchPrompt fetchedHmeEmails displayed setSelectedHmeIdxCall].
  set (shown := default fetched (searchHmeEmails fuseSearch (promptOrEmpty prompt) fetched)).
  destruct (i >=? jsLength shown); [|reflexivity].
  cbn [selectedHmeIdx searchPrompt fetchedHmeEmails]. fold shown.
  destruct (Z.geb_spec (jsLength shown - 1) (jsLength shown)); [lia | reflexivity].
Qed.

Lemma jsLength_pos {A} (l : list A) : l <> [] -> 0 < jsLength l.
Proof. unfold jsLength. destruct l; [congruence | cbn; lia]. Qed.

Lemma jsIndex_lookup {A} (l : list A) (i : Z) (x : A) :
  jsIndex l i = Some x -> l !! Z.to_nat i = Some x.
Proof. unfold jsIndex. destruct (i <? 0); [discriminate | trivial]. Qed.

(** C10, amended.  With a selected index that is not negative: whenever the
    displayed list is no longer than the index, the render issues a reset of
    the index to length-1; rendering is stable after at most one reset; once
    stable, a non-empty displayed list has its selected email, the one at the
    smaller of the index and length-1, and the details panel renders it,
    while an empty displayed list has index -1, no selected email and no
    details panel. *)
Theorem hmeListGrid_selection (idx : Z) (prompt : option string)
    (fetched : list HmeEmail) :
  0 <= idx ->
  let st := mkManagerState fetched idx prompt in
  let shown := displayed (renderPass fuseSearch st) in
  (jsLength shown <= idx ->
     setSelectedHmeIdxCall (renderPass fuseSearch st) = Some (jsLength shown - 1)) /\
  exists st' grid,
    renderUntilStable fuseSearch 2 st = Some (st', grid) /\
    displayed grid = shown /\
    fetchedHmeEmails st' = fetched /\ searchPrompt st' = prompt /\
    (shown <> [] ->
       selectedHmeIdx st' = Z.min idx (jsLength shown - 1) /\
       exists e, shown !! Z.to_nat (selectedHmeIdx st') = Some e /\
                 selectedHmeEmail grid = Some e /\ hmeDetails grid = Some e) /\
    (shown = [] ->
       selectedHmeIdx st' = -1 /\
       selectedHmeEmail grid = None /\ hmeDetails grid = None).
Proof.
  intros Hidx st shown.
  assert (Hshown : forall j, displayed (hmeListGrid fuseSearch j prompt fetched) = shown)
    by reflexivity.
  assert (Hrun := renderUntilStable_two_passes idx prompt fetched).
  cbn zeta in Hrun. rewrite (Hshown idx) in Hrun. fold st in Hrun.
  split.
  { intros Hle. unfold renderPass, st.
    cbn [selectedHmeIdx searchPrompt fetchedHmeEmails].
    rewrite hmeListGrid_call, (Hshown idx).
    destruct (Z.geb_spec idx (jsLength shown)); [reflexivity | lia]. }
  destruct (Z.geb_spec idx (jsLength shown)) as [Hge | Hlt].
  - (* the index is past the end: one reset, then stable *)
    do 2 eexists. split; [exact Hrun|].
    split; [apply Hshown|]. split; [reflexivity|]. split; [reflexivity|].
    cbn [selectedHmeIdx].
    destruct (hmeListGrid_selected (jsLength shown - 1) prompt fetched) as [Hsel Hdet].
    rewrite Hdet, Hsel, (Hshown (jsLength shown - 1)). split.
    + intros Hne. apply jsLength_pos in Hne. split; [lia|].
      assert (Hin : is_Some (jsIndex shown (jsLength shown - 1)))
        by (apply jsIndex_in_range; lia).
      destruct Hin as [e He].
      exists e. split; [exact (jsIndex_lookup _ _ _ He)|]. split; exact He.
    + intros Hnil. rewrite Hnil. repeat split.
  - (* the index is in range: stable at once *)
    do 2 eexists. split; [exact Hrun|].
    split; [apply Hshown|]. split; [reflexivity|]. split; [reflexivity|].
    cbn [selectedHmeIdx st].
    destruct (hmeListGrid_selected idx prompt fetched) as [Hsel Hdet].
    rewrite Hdet, Hsel, (Hshown idx). split.
    + intros _. split; [lia|].
      assert (Hin : is_Some (jsIndex shown idx))
        by (apply jsIndex_in_range; lia).
      destruct Hin as [e He].
      exists e. split; [exact (jsIndex_lookup _ _ _ He)|]. split; exact He.
    + intros Hnil. exfalso.
      assert (jsLength shown = 0) by (rewrite Hnil; reflexivity). lia.
Qed.

End HmeManagerProperties.

(** ** The theorems at concrete inputs *)

(** C2 at a verified session that the provider no longer accepts, in phase
    [VerifiedAndManaging], and at a session between password and second
    factor, in phase [SignedIn]. *)
Lemma validateSession_gated_by_authenticated_witness :
  let verified := worldWith VerifiedAndManaging verifiedSessionData in
  let pending := worldWith SignedIn unverifiedSessionData in
  (is_Some (verifiedMarkers (sessionData verified)) /\
   head (issued validateSession rejectingProvider verified) = Some Call_validateToken /\
   state (exec validateSession rejectingProvider verified) = SignedOut /\
   sessionData (exec validateSession rejectingProvider verified) = EMPTY_SESSION_DATA) /\
  (verifiedMarkers (sessionData pending) = None /\
   present (sessionData pending) = true /\
   exec validateSession rejectingProvider pending = pending /\
   issued validateSession rejectingProvider pending = []).
Proof.
  cbn zeta. split.
  - assert (Hm : is_Some (verifiedMarkers
                   (sessionData (worldWith VerifiedAndManaging verifiedSessionData))))
      by (eexists; reflexivity).
    destruct (validateSession_gated_by_authenticated rejectingProvider
                (worldWith VerifiedAndManaging verifiedSessionData))
      as (_ & _ & Hauth).
    destruct (Hauth Hm) as (Hhead & Hinvalid & _).
    destruct (Hinvalid eq_refl) as (Hstate & Hdata & _).
    split; [exact Hm|]. split; [exact Hhead|]. split; [exact Hstate | exact Hdata].
  - destruct (validateSession_gated_by_authenticated rejectingProvider
                (worldWith SignedIn unverifiedSessionData))
      as (_ & Hunauth & _).
    destruct (Hunauth eq_refl) as (Hsame & Hnone).
    split; [reflexivity|]. split; [vm_compute; reflexivity|].
    split; [exact Hsame | exact Hnone].
Defined.

(** C3 at the code "123456", accepted by a provider that then refuses to
    trust the device. *)
Lemma TwoFaForm_failure_keeps_sessionData_witness :
  let w := worldWith SignedIn unverifiedSessionData in
  let run := TwoFaForm_onFormSubmit
               (fun a => setState (STATE_MACHINE_TRANSITIONS SignedIn a))
               popupClient "123456" in
  String.length "123456" = 6%nat /\
  verifyAccepted distrustingProvider w "123456" = true /\
  deviceTrusted distrustingProvider w "123456" = false /\
  sessionData (exec run distrustingProvider w) = unverifiedSessionData /\
  storedSessionData (exec run distrustingProvider w) = unverifiedSessionData /\
  state (exec run distrustingProvider w) = SignedIn /\
  error (exec run distrustingProvider w) = Some failed2fa.
Proof.
  cbn zeta.
  destruct (TwoFaForm_failure_keeps_sessionData distrustingProvider
              (worldWith SignedIn unverifiedSessionData)
              (fun a => setState (STATE_MACHINE_TRANSITIONS SignedIn a))
              popupClient "123456" eq_refl eq_refl (or_introl eq_refl))
    as (_ & Hdata & Hstored & Hstate & Herror & _).
  repeat split; assumption.
Defined.

(** C4 at the code "12". *)
Lemma TwoFaForm_short_code_no_call_witness :
  let w := worldWith SignedIn unverifiedSessionData in
  state w = SignedIn /\
  String.length "12" <> 6%nat /\
  issued (user_submits2faCode w "12") grantingProvider w = [] /\
  error (exec (user_submits2faCode w "12") grantingProvider w)
    = Some "Please fill in all of the 6 digits of the code." /\
  state (exec (user_submits2faCode w "12") grantingProvider w) = SignedIn.
Proof.
  cbn zeta.
  assert (Hlen : String.length "12" <> 6%nat) by (cbn; discriminate).
  destruct (TwoFaForm_short_code_no_call grantingProvider
              (worldWith SignedIn unverifiedSessionData) "12" eq_refl Hlen)
    as (Hissued & _ & Herror & Hstate & _).
  repeat split; assumption.
Defined.

(** C5 at the code "123456" with a provider that grants everything. *)
Lemma TwoFaForm_success_order_witness :
  let w := worldWith SignedIn unverifiedSessionData in
  state w = SignedIn /\
  String.length "123456" = 6%nat /\
  issued (user_submits2faCode w "123456") grantingProvider w =
    [Call_verify2faCode "123456"; Call_trustDevice; Call_accountLogin;
     Do_setState Verified] /\
  state (exec (user_submits2faCode w "123456") grantingProvider w) = Verified /\
  sessionData (exec (user_submits2faCode w "123456") grantingProvider w)
    = verifiedSessionData.
Proof.
  cbn zeta.
  destruct (TwoFaForm_success_order grantingProvider
              (worldWith SignedIn unverifiedSessionData) "123456" eq_refl eq_refl)
    as (_ & _ & Hall).
  destruct (Hall _ eq_refl eq_refl eq_refl) as (Hissued & Hstate & _).
  split; [reflexivity|]. split; [reflexivity|]. split; [exact Hissued|].
  split; [exact Hstate | reflexivity].
Defined.

(** C6 at the management screen. *)
Lemma signOut_offered_and_resets_both_witness :
  let w := worldWith VerifiedAndManaging verifiedSessionData in
  exists el click,
    Popup w = Returned el /\
    signOutButton el = Some click /\
    sessionData (exec click rejectingProvider w) = EMPTY_SESSION_DATA /\
    state (exec click rejectingProvider w) = SignedOut.
Proof.
  cbn zeta.
  set (w := worldWith VerifiedAndManaging verifiedSessionData).
  set (el := HmeManager
    (fun a => setState (STATE_MACHINE_TRANSITIONS VerifiedAndManaging a)) popupClient).
  set (click := SignOutButton_onClick
    (fun _ => setState (STATE_MACHINE_TRANSITIONS VerifiedAndManaging
                          VerifiedAndManagingAction.SUCCESSFUL_SIGN_OUT)) popupClient).
  destruct (signOut_offered_and_resets_both rejectingProvider w w el eq_refl)
    as [_ Hclick].
  destruct (Hclick click eq_refl) as (_ & Hdata & _ & Hstate & _).
  exists el, click. repeat split; assumption.
Defined.

(** C8 at a first sign-in. *)
Lemma SignInForm_response_witness :
  let w0 := worldWith SignedOut EMPTY_SESSION_DATA in
  let w := backgroundSignIn unverifiedSessionData w0 in
  let succeeded := mkMessage LogInResponse
    (mkLogInResponseData true (Some SignedOutAction.SUCCESSFUL_SIGN_IN)) in
  state w0 = SignedOut /\
  present unverifiedSessionData = true /\
  state (exec (user_receivesMessage w succeeded) grantingProvider w) = SignedIn /\
  sessionData (exec (user_receivesMessage w succeeded) grantingProvider w)
    = unverifiedSessionData.
Proof.
  cbn zeta.
  assert (Hpresent : present unverifiedSessionData = true) by (vm_compute; reflexivity).
  destruct (SignInForm_response grantingProvider
              (worldWith SignedOut EMPTY_SESSION_DATA) unverifiedSessionData
              eq_refl Hpresent)
    as (_ & _ & Hstate & Hdata & _).
  repeat split; assumption.
Defined.

(** C9 at the generator screen, pressed when the session is still there. *)
Lemma signOut_twice_as_once_witness :
  let w := worldWith Verified verifiedSessionData in
  exists el click,
    Popup w = Returned el /\
    signOutButton el = Some click /\
    observable (exec click grantingProvider (exec click grantingProvider w))
      = observable (exec click grantingProvider w) /\
    state (exec click grantingProvider (exec click grantingProvider w)) = SignedOut.
Proof.
  cbn zeta.
  set (w := worldWith Verified verifiedSessionData).
  set (el := HmeGenerator
    (fun a => setState (STATE_MACHINE_TRANSITIONS Verified a)) popupClient).
  set (click := SignOutButton_onClick
    (fun _ => setState (STATE_MACHINE_TRANSITIONS Verified
                          VerifiedAction.SUCCESSFUL_SIGN_OUT)) popupClient).
  destruct (signOut_twice_as_once grantingProvider w w el click eq_refl eq_refl)
    as (_ & _ & Hsame & _ & _ & Hstate).
  exists el, click. repeat split; assumption.
Defined.

(** C10 at an index past the end of a list of two. *)
Lemma hmeListGrid_selection_witness :
  let st := mkManagerState [shopEmail; newsEmail] 5 None in
  0 <= 5 /\
  setSelectedHmeIdxCall (renderPass substringSearch st) = Some 1 /\
  exists st' grid,
    renderUntilStable substringSearch 2 st = Some (st', grid) /\
    selectedHmeIdx st' = 1 /\
    selectedHmeEmail grid = Some newsEmail.
Proof.
  cbn zeta.
  assert (Hidx : 0 <= 5) by lia.
  destruct (hmeListGrid_selection substringSearch 5 None [shopEmail; newsEmail] Hidx)
    as (Hcall & st' & grid & Hrun & _ & _ & _ & Hsome & _).
  split; [exact Hidx|]. split.
  - apply Hcall. vm_compute. discriminate.
  - exists st', grid. split; [exact Hrun|].
    destruct Hsome as (Hsel & e & Hlook & Hemail & _); [discriminate|].
    split; [exact Hsel|].
    rewrite Hemail. rewrite Hsel in Hlook. exact (eq_sym Hlook).
Defined.

(** * The alias screens *)

(** ** The callbacks that update the fetched list *)

Lemma toggled_involutive e : toggled (toggled e) = e.
Proof. destruct e as [? ? active ? ? ? ?]. unfold toggled. cbn. rewrite negb_involutive. reflexivity. Qed.

Lemma toggled_neq e : toggled e <> e.
Proof.
  destruct e as [? ? active ? ? ? ?]. unfold toggled. cbn. intros H.
  injection H as H. destruct active; discriminate.
Qed.

(** The email a panel shows after the toggle differs from the one before in
    [isActive] only. *)
Lemma toggled_fields e :
  hme (toggled e) = hme e /\ label (toggled e) = label e /\
  anonymousId (toggled e) = anonymousId e /\
  forwardToEmail (toggled e) = forwardToEmail e /\
  createTimestamp (toggled e) = createTimestamp e /\
  note (toggled e) = note e /\
  isActive (toggled e) = negb (isActive e).
Proof. repeat split. Qed.

(** X1. Deleting an email removes every entry equal to it from the fetched
    list and nothing else: the other entries stay, in their order; the
    selected index, the search prompt and the other cells are not touched,
    and a list that was never fetched stays so. *)
Theorem deletionCallbackFactory_removes (hmeEmail : HmeEmail) (s : Manager.t) :
  let s' := Manager.deletionCallbackFactory hmeEmail s in
  match Manager.fetchedHmeEmails s, Manager.fetchedHmeEmails s' with
  | Some before, Some after =>
      (hmeEmail ∉ after) /\
      (forall item, item ∈ after <-> (item ∈ before) /\ item <> hmeEmail) /\
      (after `sublist_of` before) /\
      (hmeEmail ∈ before -> (length after < length before)%nat)
  | None, None => True
  | _, _ => False
  end /\
  Manager.selectedHmeIdx s' = Manager.selectedHmeIdx s /\
  Manager.searchPrompt s' = Manager.searchPrompt s /\
  Manager.hmeEmailsError s' = Manager.hmeEmailsError s /\
  Manager.isFetching s' = Manager.isFetching s /\
  Manager.calls s' = Manager.calls s.
Proof.
  cbn zeta. unfold Manager.deletionCallbackFactory, Manager.setFetchedHmeEmails.
  cbn [Manager.fetchedHmeEmails Manager.selectedHmeIdx Manager.searchPrompt
       Manager.hmeEmailsError Manager.isFetching Manager.calls].
  split; [|repeat split].
  destruct (Manager.fetchedHmeEmails s) as [before|]; cbn; [|exact I].
  split; [|split; [|split]].
  - intros Hin. apply list_elem_of_filter in Hin. destruct Hin as [Hne _].
    apply Hne. reflexivity.
  - intros item. rewrite list_elem_of_filter. tauto.
  - apply sublist_filter.
  - intros Hin. apply (length_filter_lt _ _ hmeEmail Hin).
    intros Hne. apply Hne. reflexivity.
Qed.

Lemma activation_map_idempotent (hmeEmail : HmeEmail) (l : list HmeEmail) :
  let flip := fun item => if decide (item = hmeEmail) then toggled hmeEmail else item in
  flip <$> (flip <$> l) = flip <$> l.
Proof.
  cbn zeta. rewrite <- list_fmap_compose. apply list_fmap_ext.
  intros _ item _. cbn. destruct (decide (item = hmeEmail)) as [-> | Hne].
  - destruct (decide (toggled hmeEmail = hmeEmail)) as [Heq | _]; [|reflexivity].
    destruct (toggled_neq _ Heq).
  - destruct (decide (item = hmeEmail)); [contradiction | reflexivity].
Qed.

(** X2. Toggling an email keeps the fetched list as long as it was and every
    entry at its place; an entry equal to the email is replaced by the same
    email with [isActive] negated, every other entry is kept as it is; so
    addresses, labels and ids do not move. *)
Theorem activationCallbackFactory_flips (hmeEmail : HmeEmail) (s : Manager.t) :
  let s' := Manager.activationCallbackFactory hmeEmail s in
  match Manager.fetchedHmeEmails s, Manager.fetchedHmeEmails s' with
  | Some before, Some after =>
      length after = length before /\
      (forall (i : nat) (item : HmeEmail),
         before !! i = Some item ->
         after !! i = Some (if decide (item = hmeEmail) then toggled item else item)) /\
      label <$> after = label <$> before /\
      hme <$> after = hme <$> before /\
      anonymousId <$> after = anonymousId <$> before
  | None, None => True
  | _, _ => False
  end /\
  Manager.selectedHmeIdx s' = Manager.selectedHmeIdx s /\
  Manager.searchPrompt s' = Manager.searchPrompt s /\
  Manager.calls s' = Manager.calls s.
Proof.
  cbn zeta. unfold Manager.activationCallbackFactory, Manager.setFetchedHmeEmails.
  cbn [Manager.fetchedHmeEmails Manager.selectedHmeIdx Manager.searchPrompt
       Manager.calls].
  split; [|repeat split].
  destruct (Manager.fetchedHmeEmails s) as [before|]; cbn; [|exact I].
  split; [apply length_fmap|]. split.
  { intros i item Hi. rewrite list_lookup_fmap, Hi. cbn.
    destruct (decide (item = hmeEmail)) as [-> | _]; reflexivity. }
  repeat split; rewrite <- list_fmap_compose; apply list_fmap_ext;
    intros _ item _; cbn; destruct (decide (item = hmeEmail)) as [-> | _];
    reflexivity.
Qed.

(** X3. Calling the activation callback made for an email a second time
    changes nothing more: after the first call no entry equals that email any
    longer. *)
Theorem activationCallbackFactory_twice (hmeEmail : HmeEmail) (s : Manager.t) :
  Manager.activationCallbackFactory hmeEmail
    (Manager.activationCallbackFactory hmeEmail s)
  = Manager.activationCallbackFactory hmeEmail s.
Proof.
  unfold Manager.activationCallbackFactory, Manager.setFetchedHmeEmails.
  cbn [Manager.fetchedHmeEmails Manager.selectedHmeIdx Manager.searchPrompt
       Manager.calls Manager.hmeEmailsError Manager.isFetching Manager.details].
  f_equal. destruct (Manager.fetchedHmeEmails s) as [before|]; cbn; [|reflexivity].
  f_equal. apply activation_map_idempotent.
Qed.

(** X4. Toggling an email and then toggling the toggled email gives back
    the fetched list, provided the list did not already hold the toggled
    email beside the original. *)
Theorem activationCallbackFactory_round_trip (hmeEmail : HmeEmail) (s : Manager.t) :
  (forall before, Manager.fetchedHmeEmails s = Some before ->
                  toggled hmeEmail ∉ before) ->
  Manager.activationCallbackFactory (toggled hmeEmail)
    (Manager.activationCallbackFactory hmeEmail s) = s.
Proof.
  intros Hfresh. destruct s as [fetched err fetching idx prompt det cs].
  unfold Manager.activationCallbackFactory, Manager.setFetchedHmeEmails.
  cbn [Manager.fetchedHmeEmails Manager.selectedHmeIdx Manager.searchPrompt
       Manager.calls Manager.hmeEmailsError Manager.isFetching Manager.details].
  f_equal. destruct fetched as [before|]; cbn; [|reflexivity].
  f_equal. rewrite <- list_fmap_compose.
  rewrite <- (list_fmap_id before) at 2. apply list_fmap_ext.
  intros i item Hi. cbn.
  destruct (decide (item = hmeEmail)) as [-> | Hne].
  - destruct (decide (toggled hmeEmail = toggled hmeEmail)) as [_ | Hn];
      [apply toggled_involutive | contradiction].
  - destruct (decide (item = toggled hmeEmail)) as [-> | _]; [|reflexivity].
    exfalso. apply (Hfresh before eq_refl).
    apply list_elem_of_lookup. exists i. exact Hi.
Qed.

(** ** Fetching the list *)

Lemma sortInsert_Permutation {A} (compareFn : A -> A -> Z) x l :
  sortInsert compareFn x l ≡ₚ x :: l.
Proof.
  induction l as [|y l IH]; cbn; [reflexivity|].
  destruct (compareFn x y <=? 0); [reflexivity|].
  rewrite IH. apply Permutation_swap.
Qed.

Lemma jsSort_Permutation {A} (compareFn : A -> A -> Z) l :
  jsSort compareFn l ≡ₚ l.
Proof.
  induction l as [|x l IH]; cbn; [reflexivity|].
  rewrite sortInsert_Permutation. rewrite IH. reflexivity.
Qed.

(** [newerOrSame a b]: [a] was created no earlier than [b]. *)
Lemma sortInsert_newestFirst x l :
  StronglySorted (fun a b => createTimestamp b <= createTimestamp a) l ->
  StronglySorted (fun a b => createTimestamp b <= createTimestamp a)
    (sortInsert newestFirst x l).
Proof.
  induction 1 as [|y l Hsorted IH Hall]; cbn.
  - repeat constructor.
  - unfold newestFirst at 1.
    destruct (Z.leb_spec (createTimestamp y - createTimestamp x) 0) as [Hle | Hgt].
    + constructor; [constructor; assumption|].
      constructor; [lia|].
      eapply Forall_impl; [exact Hall|]. cbn. intros z Hz. lia.
    + constructor; [exact IH|].
      rewrite sortInsert_Permutation. constructor; [lia | exact Hall].
Qed.

Lemma jsSort_newestFirst l :
  StronglySorted (fun a b => createTimestamp b <= createTimestamp a)
    (jsSort newestFirst l).
Proof.
  induction l as [|x l IH]; cbn; [constructor|].
  apply sortInsert_newestFirst. exact IH.
Qed.

Lemma sortInsert_stable (t : Z) x l :
  filter (fun e => createTimestamp e = t) (sortInsert newestFirst x l)
  = filter (fun e => createTimestamp e = t) (x :: l).
Proof.
  induction l as [|y l IH]; cbn [sortInsert]; [reflexivity|].
  unfold newestFirst at 1.
  destruct (Z.leb_spec (createTimestamp y - createTimestamp x) 0) as [Hle | Hgt];
    [reflexivity|].
  rewrite (filter_cons _ y), IH, !filter_cons.
  destruct (decide (createTimestamp y = t)) as [Hy | Hy];
    destruct (decide (createTimestamp x = t)) as [Hx | Hx]; try reflexivity.
  lia.
Qed.

Lemma jsSort_stable (t : Z) l :
  filter (fun e => createTimestamp e = t) (jsSort newestFirst l)
  = filter (fun e => createTimestamp e = t) l.
Proof.
  induction l as [|x l IH]; [reflexivity|].
  cbn [jsSort foldr]. rewrite sortInsert_stable.
  rewrite !filter_cons. fold (jsSort newestFirst l). rewrite IH. reflexivity.
Qed.

(** X5. A fetch issues one [listHme] and always ends with the spinner off.
    When the call succeeds the list kept holds exactly the emails received,
    ordered by creation time with the newest first, emails of the same time
    in the order received, and no error is shown.  When it fails the list
    kept before stays and the error is the reason of the failure.  The
    selected index and the search prompt are not touched. *)
Theorem Manager_fetchHmeList_outcome (pms : PremiumMailSettings) (s : Manager.t) :
  let s' := Manager.fetchHmeList pms s in
  Manager.isFetching s' = false /\
  Manager.calls s' = (Manager.calls s ++ [Call_listHme])%list /\
  Manager.selectedHmeIdx s' = Manager.selectedHmeIdx s /\
  Manager.searchPrompt s' = Manager.searchPrompt s /\
  match listHme pms with
  | Returned result =>
      Manager.hmeEmailsError s' = None /\
      exists kept,
        Manager.fetchedHmeEmails s' = Some kept /\
        kept ≡ₚ hmeEmails result /\
        StronglySorted (fun a b => createTimestamp b <= createTimestamp a) kept /\
        (forall t, filter (fun e => createTimestamp e = t) kept
                   = filter (fun e => createTimestamp e = t) (hmeEmails result))
  | Thrown e =>
      Manager.hmeEmailsError s' = Some e /\
      Manager.fetchedHmeEmails s' = Manager.fetchedHmeEmails s
  end.
Proof.
  cbn zeta. unfold Manager.fetchHmeList, Manager.fetchHmeList_end,
    Manager.fetchHmeList_begin.
  destruct (listHme pms) as [result | e]; cbn; repeat split.
  eexists. split; [reflexivity|]. split; [apply jsSort_Permutation|].
  split; [apply jsSort_newestFirst | intros t; apply jsSort_stable].
Qed.

(** ** The buttons of the details panel *)

(** X7. A click on the delete button issues exactly one [deleteHme] with
    the id of the email and always ends with the loader off.  When the call
    succeeds the email is gone from the fetched list; when it fails the
    fetched list is not touched and the error shown is the reason. *)
Theorem Manager_onDeletionClick_outcome (hmeEmail : HmeEmail)
    (pms : PremiumMailSettings) (s : Manager.t) :
  let s' := Manager.onDeletionClick hmeEmail
              (Manager.deletionCallbackFactory hmeEmail) pms s in
  Manager.calls s' = (Manager.calls s ++ [Call_deleteHme (anonymousId hmeEmail)])%list /\
  Details.isDeleteSubmitting (Manager.details s') = false /\
  Manager.selectedHmeIdx s' = Manager.selectedHmeIdx s /\
  Manager.searchPrompt s' = Manager.searchPrompt s /\
  match deleteHme pms (anonymousId hmeEmail) with
  | Returned _ =>
      (forall kept, Manager.fetchedHmeEmails s' = Some kept -> hmeEmail ∉ kept) /\
      Manager.fetchedHmeEmails s'
        = filter (fun item => item <> hmeEmail) <$> Manager.fetchedHmeEmails s /\
      Details.error (Manager.details s') = Details.error (Manager.details s)
  | Thrown e =>
      Manager.fetchedHmeEmails s' = Manager.fetchedHmeEmails s /\
      Details.error (Manager.details s') = Some e
  end.
Proof.
  cbn zeta. unfold Manager.onDeletionClick.
  destruct (deleteHme pms (anonymousId hmeEmail)); cbn; repeat split.
  intros kept Hkept Hin.
  destruct (Manager.fetchedHmeEmails s) as [before|]; cbn in Hkept; [|discriminate].
  injection Hkept as <-. apply list_elem_of_filter in Hin.
  destruct Hin as [Hne _]. apply Hne. reflexivity.
Qed.

(** ** Rendering the management view *)

Section ManagerRendering.

Variable fuseSearch : string -> list HmeEmail -> list HmeEmail.

Lemma truthy_false_promptOrEmpty prompt :
  truthy prompt = false <-> promptOrEmpty prompt = "".
Proof.
  unfold truthy, promptOrEmpty. destruct prompt as [p|]; cbn; [|tauto].
  destruct (decide (p = "")) as [-> | Hne].
  - rewrite bool_decide_eq_true_2 by reflexivity. tauto.
  - rewrite bool_decide_eq_false_2 by assumption. cbn. split; [discriminate | contradiction].
Qed.

Lemma displayed_without_prompt idx prompt fetched :
  truthy prompt = false ->
  displayed (hmeListGrid fuseSearch idx prompt fetched) = fetched.
Proof.
  intros Hp. apply truthy_false_promptOrEmpty in Hp.
  unfold hmeListGrid, searchHmeEmails. cbn [displayed]. rewrite Hp.
  rewrite bool_decide_eq_true_2 by reflexivity. reflexivity.
Qed.

Lemma displayed_with_prompt idx prompt fetched :
  truthy prompt = true ->
  displayed (hmeListGrid fuseSearch idx prompt fetched)
  = fuseSearch (promptOrEmpty prompt) fetched.
Proof.
  intros Hp. unfold hmeListGrid, searchHmeEmails. cbn [displayed].
  destruct (decide (promptOrEmpty prompt = "")) as [He | Hne].
  - apply truthy_false_promptOrEmpty in He. congruence.
  - rewrite bool_decide_eq_false_2 by assumption. reflexivity.
Qed.

(** The grid is rendered for a fetched list that is not empty, and only when
    no fetch is running and no error is shown. *)
Lemma resolveMainChildComponent_Grid s grid :
  Manager.resolveMainChildComponent fuseSearch s = Manager.Grid grid ->
  exists fetched,
    Manager.fetchedHmeEmails s = Some fetched /\ fetched <> [] /\
    Manager.isFetching s = false /\ truthy (Manager.hmeEmailsError s) = false /\
    grid = hmeListGrid fuseSearch (Manager.selectedHmeIdx s) (Manager.searchPrompt s)
             fetched.
Proof.
  unfold Manager.resolveMainChildComponent.
  destruct (Manager.isFetching s); [discriminate|].
  destruct (truthy (Manager.hmeEmailsError s)); [discriminate|].
  destruct (Manager.fetchedHmeEmails s) as [[|e fetched]|]; try discriminate.
  intros [= <-]. exists (e :: fetched). repeat split. discriminate.
Qed.

Lemma resolveMainChildComponent_setSelectedHmeIdx s idx fetched :
  Manager.resolveMainChildComponent fuseSearch s
    = Manager.Grid (hmeListGrid fuseSearch (Manager.selectedHmeIdx s)
                      (Manager.searchPrompt s) fetched) ->
  Manager.fetchedHmeEmails s = Some fetched ->
  Manager.resolveMainChildComponent fuseSearch (Manager.setSelectedHmeIdx idx s)
    = Manager.Grid (hmeListGrid fuseSearch idx (Manager.searchPrompt s) fetched).
Proof.
  unfold Manager.resolveMainChildComponent, Manager.setSelectedHmeIdx.
  cbn [Manager.isFetching Manager.hmeEmailsError Manager.fetchedHmeEmails
       Manager.selectedHmeIdx Manager.searchPrompt].
  destruct (Manager.isFetching s); [discriminate|].
  destruct (truthy (Manager.hmeEmailsError s)); [discriminate|].
  intros Hres Hfetched. rewrite Hfetched in *.
  (* the empty list renders the empty state, never the grid *)
  destruct fetched; [discriminate Hres | reflexivity].
Qed.

(** What two passes of rendering produce: either the first pass shows
    something else than the grid, or it shows the grid for the index that the
    guard of [hmeListGrid] leaves. *)
Lemma render_two_passes s :
  match Manager.resolveMainChildComponent fuseSearch s with
  | Manager.Grid grid =>
      exists fetched,
        Manager.fetchedHmeEmails s = Some fetched /\ fetched <> [] /\
        let shown := displayed grid in
        let idx := if Manager.selectedHmeIdx s >=? jsLength shown
                   then jsLength shown - 1 else Manager.selectedHmeIdx s in
        Manager.render fuseSearch 2 s =
          Some (Manager.setSelectedHmeIdx idx s,
                Manager.Grid (hmeListGrid fuseSearch idx (Manager.searchPrompt s) fetched))
  | child => Manager.render fuseSearch 2 s = Some (s, child)
  end.
Proof.
  destruct (Manager.resolveMainChildComponent fuseSearch s) as [| | |grid] eqn:Hres;
    try (cbn [Manager.render]; rewrite Hres; reflexivity).
  destruct (resolveMainChildComponent_Grid s grid Hres)
    as (fetched & Hfetched & Hne & _ & _ & ->).
  exists fetched. split; [exact Hfetched|]. split; [exact Hne|]. cbn zeta.
  set (shown := displayed (hmeListGrid fuseSearch (Manager.selectedHmeIdx s)
                             (Manager.searchPrompt s) fetched)).
  cbn [Manager.render]. rewrite Hres. rewrite hmeListGrid_call. fold shown.
  destruct (Z.geb_spec (Manager.selectedHmeIdx s) (jsLength shown)) as [Hge | Hlt].
  - rewrite (resolveMainChildComponent_setSelectedHmeIdx s _ fetched Hres Hfetched).
    rewrite hmeListGrid_call.
    rewrite (displayed_index_irrelevant fuseSearch _ (Manager.selectedHmeIdx s)).
    fold shown.
    destruct (Z.geb_spec (jsLength shown - 1) (jsLength shown)); [lia | reflexivity].
  - destruct s; reflexivity.
Qed.

Lemma rendered_cells s :
  let s' := (Manager.rendered fuseSearch s).1 in
  Manager.fetchedHmeEmails s' = Manager.fetchedHmeEmails s /\
  Manager.searchPrompt s' = Manager.searchPrompt s /\
  Manager.hmeEmailsError s' = Manager.hmeEmailsError s /\
  Manager.isFetching s' = Manager.isFetching s /\
  Manager.calls s' = Manager.calls s /\
  Manager.details s' = Manager.details s.
Proof.
  cbn zeta. unfold Manager.rendered. pose proof (render_two_passes s) as H.
  destruct (Manager.resolveMainChildComponent fuseSearch s);
    try (rewrite H; cbn; repeat split).
  destruct H as (fetched & _ & _ & ->). cbn. repeat split.
Qed.

Lemma rendered_indexInRange s :
  indexInRange s -> indexInRange (Manager.rendered fuseSearch s).1.
Proof.
  intros [Hlo Hprompt]. unfold Manager.rendered.
  pose proof (render_two_passes s) as H.
  destruct (Manager.resolveMainChildComponent fuseSearch s) as [| | |grid] eqn:Hres;
    try (rewrite H; cbn; split; assumption).
  destruct (resolveMainChildComponent_Grid s grid Hres)
    as (fetched' & Hfetched' & _ & _ & _ & Hgrid).
  destruct H as (fetched & Hfetched & Hne & ->).
  assert (fetched' = fetched) by congruence. subst fetched'.
  unfold indexInRange, Manager.setSelectedHmeIdx, default.
  cbn [from_option id fst Manager.selectedHmeIdx Manager.searchPrompt].
  destruct (Z.geb_spec (Manager.selectedHmeIdx s) (jsLength (displayed grid)))
    as [Hge | Hlt]; [|split; assumption].
  assert (Hlen : 0 <= jsLength (displayed grid)) by (unfold jsLength; lia).
  split; [lia|]. intros Hminus.
  destruct (truthy (Manager.searchPrompt s)) eqn:Htruthy; [reflexivity|].
  exfalso. rewrite Hgrid in Hminus.
  rewrite (displayed_without_prompt _ _ _ Htruthy) in Hminus.
  apply Hne. apply jsLength_nil_iff. lia.
Qed.

Lemma clickActivation_index pms child s :
  Manager.selectedHmeIdx (Manager.clickActivation pms child s) = Manager.selectedHmeIdx s /\
  Manager.searchPrompt (Manager.clickActivation pms child s) = Manager.searchPrompt s.
Proof.
  unfold Manager.clickActivation. destruct child as [| | |grid]; try (split; reflexivity).
  destruct (hmeDetails grid) as [e|]; [|split; reflexivity].
  unfold Manager.onActivationClick.
  destruct (isActive e).
  - destruct (deactivateHme pms (anonymousId e)); split; reflexivity.
  - destruct (reactivateHme pms (anonymousId e)); split; reflexivity.
Qed.

Lemma clickDeletion_index pms child s :
  Manager.selectedHmeIdx (Manager.clickDeletion pms child s) = Manager.selectedHmeIdx s /\
  Manager.searchPrompt (Manager.clickDeletion pms child s) = Manager.searchPrompt s.
Proof.
  unfold Manager.clickDeletion. destruct child as [| | |grid]; try (split; reflexivity).
  destruct (hmeDetails grid) as [e|]; [|split; reflexivity].
  destruct (isActive e); [split; reflexivity|].
  unfold Manager.onDeletionClick.
  destruct (deleteHme pms (anonymousId e)); split; reflexivity.
Qed.

Lemma happen_indexInRange h s :
  indexInRange s -> indexInRange (Manager.happen fuseSearch h s).
Proof.
  intros Hinv. destruct h as [|pms|value|idx|pms|pms|]; cbn [Manager.happen].
  - exact Hinv.
  - destruct Hinv as [Hlo Hp]. unfold Manager.fetchHmeList_end.
    destruct (listHme pms); split; assumption.
  - split; cbn; [lia | discriminate].
  - split; cbn; [lia | lia].
  - apply rendered_indexInRange in Hinv. unfold indexInRange.
    destruct (clickActivation_index pms (Manager.rendered fuseSearch s).2
                (Manager.rendered fuseSearch s).1) as [-> ->]. exact Hinv.
  - apply rendered_indexInRange in Hinv. unfold indexInRange.
    destruct (clickDeletion_index pms (Manager.rendered fuseSearch s).2
                (Manager.rendered fuseSearch s).1) as [-> ->]. exact Hinv.
  - apply rendered_indexInRange. exact Hinv.
Qed.

Lemma after_indexInRange (happenings : list Manager.Happening) :
  indexInRange (Manager.after fuseSearch happenings Manager.initial).
Proof.
  induction happenings as [|h happenings IH] using rev_ind.
  - split; cbn; [lia | discriminate].
  - unfold Manager.after. rewrite foldl_app. cbn [foldl].
    apply happen_indexInRange. exact IH.
Qed.

(** X8. Whatever happens to a mounted management view (fetches that begin
    and end, changes of the search box, clicks on labels and on the buttons of
    the details panel, renders), the selected index never goes below -1, and
    it is -1 only while a search prompt is set. *)
Theorem Manager_selectedHmeIdx_invariant (happenings : list Manager.Happening) :
  let s := Manager.after fuseSearch happenings Manager.initial in
  -1 <= Manager.selectedHmeIdx s /\
  (Manager.selectedHmeIdx s = -1 -> truthy (Manager.searchPrompt s) = true).
Proof. exact (after_indexInRange happenings). Qed.

(** X9. Whatever happened before, rendering the management view settles
    within two passes; and when no search prompt is set and the grid is what
    is shown, the grid lists the whole fetched list, an email of it is
    selected, and the details panel renders that email. *)
Theorem Manager_grid_without_prompt_has_selection
    (happenings : list Manager.Happening) :
  let s := Manager.after fuseSearch happenings Manager.initial in
  exists s' child,
    Manager.render fuseSearch 2 s = Some (s', child) /\
    (truthy (Manager.searchPrompt s) = false ->
     forall grid, child = Manager.Grid grid ->
       Manager.fetchedHmeEmails s' = Some (displayed grid) /\
       exists hmeEmail,
         hmeEmail ∈ displayed grid /\
         jsIndex (displayed grid) (Manager.selectedHmeIdx s') = Some hmeEmail /\
         selectedHmeEmail grid = Some hmeEmail /\
         hmeDetails grid = Some hmeEmail).
Proof.
  cbn zeta. set (s := Manager.after fuseSearch happenings Manager.initial).
  destruct (after_indexInRange happenings) as [Hlo Hminus].
  fold s in Hlo, Hminus.
  pose proof (render_two_passes s) as H.
  destruct (Manager.resolveMainChildComponent fuseSearch s) as [| | |grid0] eqn:Hres;
    try (do 2 eexists; split; [exact H|]; intros _ grid [=]).
  destruct H as (fetched & Hfetched & Hne & Hrun). cbn zeta in Hrun.
  do 2 eexists. split; [exact Hrun|].
  intros Hprompt grid [= <-].
  destruct (resolveMainChildComponent_Grid s grid0 Hres)
    as (fetched' & Hfetched' & _ & _ & _ & Hgrid0).
  assert (fetched' = fetched) by congruence. subst fetched'.
  assert (Hshown0 : displayed grid0 = fetched).
  { rewrite Hgrid0. apply displayed_without_prompt. exact Hprompt. }
  rewrite Hshown0 in *.
  rewrite (displayed_without_prompt _ _ _ Hprompt).
  cbn [Manager.fetchedHmeEmails Manager.setSelectedHmeIdx Manager.selectedHmeIdx].
  split; [exact Hfetched|].
  assert (Hpos : 0 < jsLength fetched) by (apply jsLength_pos; exact Hne).
  assert (Hidx : 0 <= Manager.selectedHmeIdx s).
  { destruct (decide (Manager.selectedHmeIdx s = -1)) as [He | Hn]; [|lia].
    rewrite (Hminus He) in Hprompt. discriminate. }
  set (idx := if Manager.selectedHmeIdx s >=? jsLength fetched
              then jsLength fetched - 1 else Manager.selectedHmeIdx s).
  assert (Hrange : 0 <= idx < jsLength fetched).
  { unfold idx. destruct (Z.geb_spec (Manager.selectedHmeIdx s) (jsLength fetched)); lia. }
  destruct (jsIndex_in_range fetched idx Hrange) as [e He].
  exists e. split.
  { apply list_elem_of_lookup. exists (Z.to_nat idx). exact (jsIndex_lookup _ _ _ He). }
  split; [exact He|].
  destruct (hmeListGrid_selected fuseSearch idx (Manager.searchPrompt s) fetched)
    as [Hsel Hdet].
  rewrite Hdet, Hsel, (displayed_without_prompt _ _ _ Hprompt). split; exact He.
Qed.

Lemma filter_neq_all {A} `{EqDecision A} (x : A) (l : list A) :
  x ∉ l -> filter (fun item => item <> x) l = l.
Proof.
  induction l as [|y l IH]; [reflexivity|].
  intros Hnotin. apply not_elem_of_cons in Hnotin as [Hne Hnotin].
  rewrite filter_cons_True by congruence. rewrite IH by assumption. reflexivity.
Qed.

(** In a list without repetition, filtering an entry out deletes its
    position. *)
Lemma filter_neq_delete {A} `{EqDecision A} (l : list A) (i : nat) (x : A) :
  NoDup l -> l !! i = Some x ->
  filter (fun item => item <> x) l = delete i l.
Proof.
  intros Hnodup. revert i. induction Hnodup as [|y l Hnotin Hnodup IH]; intros i Hi.
  - discriminate.
  - destruct i as [|i]; cbn in Hi.
    + injection Hi as ->. rewrite filter_cons_False by (intros H'; apply H'; reflexivity).
      apply filter_neq_all. exact Hnotin.
    + assert (Hne : y <> x).
      { intros ->. apply Hnotin. apply list_elem_of_lookup. exists i. exact Hi. }
      rewrite filter_cons_True by assumption. cbn. rewrite (IH i Hi). reflexivity.
Qed.

(** X10. In a management view that shows the grid without a search prompt,
    for a fetched list without repetition: once the selected email is
    deleted from the list, the view shows the empty state if it was the only
    email; otherwise it shows the grid of the remaining emails, and the email
    selected is the one that followed the deleted email, or the one before it
    if the deleted email was the last. *)
Theorem Manager_delete_selected (s : Manager.t) (fetched : list HmeEmail)
    (i : nat) (hmeEmail : HmeEmail) :
  Manager.isFetching s = false ->
  truthy (Manager.hmeEmailsError s) = false ->
  truthy (Manager.searchPrompt s) = false ->
  Manager.fetchedHmeEmails s = Some fetched ->
  NoDup fetched ->
  fetched !! i = Some hmeEmail ->
  Manager.selectedHmeIdx s = Z.of_nat i ->
  let s1 := Manager.deletionCallbackFactory hmeEmail s in
  Manager.fetchedHmeEmails s1 = Some (delete i fetched) /\
  exists s' child,
    Manager.render fuseSearch 2 s1 = Some (s', child) /\
    (length fetched = 1%nat -> child = Manager.EmptyState) /\
    ((1 < length fetched)%nat ->
     exists grid next,
       child = Manager.Grid grid /\
       displayed grid = delete i fetched /\
       (if decide (S i < length fetched)%nat
        then fetched !! S i else fetched !! (i - 1)%nat) = Some next /\
       selectedHmeEmail grid = Some next /\
       hmeDetails grid = Some next).
Proof.
  intros Hfetching Herror Hprompt Hfetched Hnodup Hi Hidx s1.
  assert (Hlt : (i < length fetched)%nat) by (eapply lookup_lt_Some; exact Hi).
  assert (Hfetched1 : Manager.fetchedHmeEmails s1 = Some (delete i fetched)).
  { unfold s1, Manager.deletionCallbackFactory, Manager.setFetchedHmeEmails.
    cbn [Manager.fetchedHmeEmails]. rewrite Hfetched. cbn.
    rewrite (filter_neq_delete fetched i hmeEmail Hnodup Hi). reflexivity. }
  split; [exact Hfetched1|].
  assert (Hlen1 : length (delete i fetched) = (length fetched - 1)%nat).
  { rewrite length_delete; [reflexivity|]. exists hmeEmail. exact Hi. }
  pose proof (render_two_passes s1) as Hrun.
  assert (Hres : Manager.resolveMainChildComponent fuseSearch s1 =
            match delete i fetched with
            | [] => Manager.EmptyState
            | _ => Manager.Grid (hmeListGrid fuseSearch (Z.of_nat i)
                                   (Manager.searchPrompt s) (delete i fetched))
            end).
  { unfold Manager.resolveMainChildComponent. rewrite Hfetched1.
    unfold s1, Manager.deletionCallbackFactory, Manager.setFetchedHmeEmails.
    cbn [Manager.isFetching Manager.hmeEmailsError Manager.selectedHmeIdx
         Manager.searchPrompt].
    rewrite Hfetching, Herror, Hidx. destruct (delete i fetched); reflexivity. }
  rewrite Hres in Hrun.
  destruct (delete i fetched) as [|e1 rest] eqn:Hdel.
  - (* the deleted email was the only one *)
    do 2 eexists. split; [exact Hrun|]. split; [reflexivity|].
    intros Hmany. cbn in Hlen1. lia.
  - destruct Hrun as (fetched1 & Hf1 & _ & Hrun). cbn zeta in Hrun.
    assert (fetched1 = e1 :: rest) by congruence. subst fetched1.
    assert (Hprompt1 : Manager.searchPrompt s1 = Manager.searchPrompt s) by reflexivity.
    assert (Hidx1 : Manager.selectedHmeIdx s1 = Z.of_nat i) by exact Hidx.
    rewrite Hprompt1, Hidx1 in Hrun.
    rewrite (displayed_without_prompt _ _ _ Hprompt) in Hrun.
    do 2 eexists. split; [exact Hrun|]. split.
    { intros Hone. rewrite Hone in Hlen1. cbn in Hlen1. lia. }
    intros Hmany.
    set (idx := if Z.of_nat i >=? jsLength (e1 :: rest)
                then jsLength (e1 :: rest) - 1 else Z.of_nat i) in *.
    assert (Hjs : jsLength (e1 :: rest) = Z.of_nat (length fetched) - 1).
    { unfold jsLength. rewrite Hlen1. lia. }
    assert (Hnext : exists next,
              (if decide (S i < length fetched)%nat
               then fetched !! S i else fetched !! (i - 1)%nat) = Some next /\
              jsIndex (e1 :: rest) idx = Some next).
    { unfold idx, jsIndex. rewrite <- Hdel in Hjs |- *.
      destruct (decide (S i < length fetched)%nat) as [Hmid | Hlast].
      - destruct (Z.geb_spec (Z.of_nat i) (jsLength (delete i fetched))) as [Hge | _];
          [lia|].
        destruct (Z.ltb_spec (Z.of_nat i) 0); [lia|]. rewrite Nat2Z.id.
        rewrite list_lookup_delete_ge by lia.
        destruct (lookup_lt_is_Some_2 fetched (S i) Hmid) as [next Hn].
        exists next. split; exact Hn.
      - destruct (Z.geb_spec (Z.of_nat i) (jsLength (delete i fetched))) as [_ | Hl];
          [|lia].
        rewrite Hjs.
        destruct (Z.ltb_spec (Z.of_nat (length fetched) - 1 - 1) 0); [lia|].
        replace (Z.to_nat (Z.of_nat (length fetched) - 1 - 1)) with (i - 1)%nat by lia.
        rewrite list_lookup_delete_lt by lia.
        destruct (lookup_lt_is_Some_2 fetched (i - 1)%nat) as [next Hn]; [lia|].
        exists next. split; exact Hn. }
    destruct Hnext as (next & Hnext & Hsel).
    eexists _, next. split; [reflexivity|].
    split; [apply displayed_without_prompt; exact Hprompt|].
    split; [exact Hnext|].
    destruct (hmeListGrid_selected fuseSearch idx (Manager.searchPrompt s) (e1 :: rest))
      as [Hs Hd].
    rewrite Hd, Hs, (displayed_without_prompt _ _ _ Hprompt). split; exact Hsel.
Qed.

Lemma resolveMainChildComponent_grid s fetched :
  Manager.isFetching s = false ->
  truthy (Manager.hmeEmailsError s) = false ->
  Manager.fetchedHmeEmails s = Some fetched ->
  fetched <> [] ->
  Manager.resolveMainChildComponent fuseSearch s
  = Manager.Grid (hmeListGrid fuseSearch (Manager.selectedHmeIdx s)
                    (Manager.searchPrompt s) fetched).
Proof.
  intros Hfetching Herror Hfetched Hne. unfold Manager.resolveMainChildComponent.
  rewrite Hfetching, Herror, Hfetched. destruct fetched; [contradiction | reflexivity].
Qed.

(** What is rendered for a state that shows the grid. *)
Lemma rendered_grid s fetched :
  Manager.isFetching s = false ->
  truthy (Manager.hmeEmailsError s) = false ->
  Manager.fetchedHmeEmails s = Some fetched ->
  fetched <> [] ->
  let shown := displayed (hmeListGrid fuseSearch (Manager.selectedHmeIdx s)
                            (Manager.searchPrompt s) fetched) in
  let idx := if Manager.selectedHmeIdx s >=? jsLength shown
             then jsLength shown - 1 else Manager.selectedHmeIdx s in
  Manager.rendered fuseSearch s =
    (Manager.setSelectedHmeIdx idx s,
     Manager.Grid (hmeListGrid fuseSearch idx (Manager.searchPrompt s) fetched)).
Proof.
  intros Hfetching Herror Hfetched Hne. cbn zeta.
  pose proof (render_two_passes s) as Hrun.
  rewrite (resolveMainChildComponent_grid s fetched Hfetching Herror Hfetched Hne) in Hrun.
  destruct Hrun as (fetched' & Hfetched' & _ & Hrun). cbn zeta in Hrun.
  assert (fetched' = fetched) by congruence. subst fetched'.
  unfold Manager.rendered. rewrite Hrun. reflexivity.
Qed.

(** A render that shows the details panel shows the grid, with the selected
    index within the displayed list. *)
Lemma rendered_panel s hmeEmail :
  Manager.panelEmail (Manager.rendered fuseSearch s).2 = Some hmeEmail ->
  exists fetched idx,
    Manager.isFetching s = false /\
    truthy (Manager.hmeEmailsError s) = false /\
    Manager.fetchedHmeEmails s = Some fetched /\ fetched <> [] /\
    Manager.rendered fuseSearch s =
      (Manager.setSelectedHmeIdx idx s,
       Manager.Grid (hmeListGrid fuseSearch idx (Manager.searchPrompt s) fetched)) /\
    jsIndex (displayed (hmeListGrid fuseSearch idx (Manager.searchPrompt s) fetched)) idx
      = Some hmeEmail.
Proof.
  intros Hpanel.
  destruct (Manager.resolveMainChildComponent fuseSearch s) as [| | |grid] eqn:Hres.
  1-3: pose proof (render_two_passes s) as Hrun; rewrite Hres in Hrun;
       unfold Manager.rendered in Hpanel; rewrite Hrun in Hpanel; discriminate Hpanel.
  destruct (resolveMainChildComponent_Grid s grid Hres)
    as (fetched & Hfetched & Hne & Hfetching & Herror & _).
  pose proof (rendered_grid s fetched Hfetching Herror Hfetched Hne) as Hrendered.
  cbn zeta in Hrendered. rewrite Hrendered in Hpanel. cbn [snd Manager.panelEmail] in Hpanel.
  do 2 eexists. split; [exact Hfetching|]. split; [exact Herror|].
  split; [exact Hfetched|]. split; [exact Hne|]. split; [exact Hrendered|].
  destruct (hmeListGrid_selected fuseSearch
              (if Manager.selectedHmeIdx s >=?
                  jsLength (displayed (hmeListGrid fuseSearch (Manager.selectedHmeIdx s)
                                         (Manager.searchPrompt s) fetched))
               then jsLength (displayed (hmeListGrid fuseSearch (Manager.selectedHmeIdx s)
                                           (Manager.searchPrompt s) fetched)) - 1
               else Manager.selectedHmeIdx s)
              (Manager.searchPrompt s) fetched) as [Hsel Hdet].
  rewrite Hdet, Hsel in Hpanel. exact Hpanel.
Qed.

(** A state whose selected index lies within the displayed list is rendered
    as it is. *)
Lemma rendered_in_range s fetched :
  Manager.isFetching s = false ->
  truthy (Manager.hmeEmailsError s) = false ->
  Manager.fetchedHmeEmails s = Some fetched ->
  fetched <> [] ->
  Manager.selectedHmeIdx s
    < jsLength (displayed (hmeListGrid fuseSearch (Manager.selectedHmeIdx s)
                             (Manager.searchPrompt s) fetched)) ->
  Manager.rendered fuseSearch s =
    (s, Manager.Grid (hmeListGrid fuseSearch (Manager.selectedHmeIdx s)
                        (Manager.searchPrompt s) fetched)).
Proof.
  intros Hfetching Herror Hfetched Hne Hlt.
  rewrite (rendered_grid s fetched Hfetching Herror Hfetched Hne).
  destruct (Z.geb_spec (Manager.selectedHmeIdx s)
              (jsLength (displayed (hmeListGrid fuseSearch (Manager.selectedHmeIdx s)
                                      (Manager.searchPrompt s) fetched)))); [lia|].
  destruct s; reflexivity.
Qed.

Lemma jsIndex_Some_range {A} (l : list A) (i : Z) (x : A) :
  jsIndex l i = Some x -> 0 <= i < jsLength l.
Proof.
  unfold jsIndex, jsLength. destruct (Z.ltb_spec i 0); [discriminate|].
  intros Hi. apply lookup_lt_Some in Hi. lia.
Qed.

(** A state that shows the grid with the selected index on an email is
    rendered as it is, with that email in the details panel. *)
Lemma rendered_on_email s fetched hmeEmail :
  Manager.isFetching s = false ->
  truthy (Manager.hmeEmailsError s) = false ->
  Manager.fetchedHmeEmails s = Some fetched ->
  jsIndex (displayed (hmeListGrid fuseSearch (Manager.selectedHmeIdx s)
                        (Manager.searchPrompt s) fetched))
          (Manager.selectedHmeIdx s) = Some hmeEmail ->
  fetched <> [] ->
  Manager.rendered fuseSearch s =
    (s, Manager.Grid (hmeListGrid fuseSearch (Manager.selectedHmeIdx s)
                        (Manager.searchPrompt s) fetched)) /\
  Manager.panelEmail (Manager.rendered fuseSearch s).2 = Some hmeEmail.
Proof.
  intros Hfetching Herror Hfetched Hindex Hne.
  pose proof (jsIndex_Some_range _ _ _ Hindex) as Hrange.
  assert (Hrendered := rendered_in_range s fetched Hfetching Herror Hfetched Hne
                         (proj2 Hrange)).
  split; [exact Hrendered|]. rewrite Hrendered. cbn [snd Manager.panelEmail].
  destruct (hmeListGrid_selected fuseSearch (Manager.selectedHmeIdx s)
              (Manager.searchPrompt s) fetched) as [Hsel Hdet].
  rewrite Hdet, Hsel. exact Hindex.
Qed.

(** X6. A click on the activation button of the details panel, followed
    through the render it causes and the effect of the panel, issues exactly
    one call, which is [deactivateHme] for an active email and [reactivateHme]
    for a deactivated one, with the id of the email, and ends with the loader
    off.  When the call fails, the fetched list and the selection stay, the
    panel still shows the email and its error is the reason.  When the call
    succeeds, the fetched list is the one the activation callback leaves; and
    without a search prompt the panel then shows the toggled email at the same
    index, with its error and its loaders reset by the effect. *)
Theorem Manager_onActivationClick_outcome (pms : PremiumMailSettings)
    (s : Manager.t) (hmeEmail : HmeEmail) :
  Manager.panelEmail (Manager.rendered fuseSearch s).2 = Some hmeEmail ->
  let s' := Manager.activationClickSettled fuseSearch pms s in
  let call := if isActive hmeEmail
              then Call_deactivateHme (anonymousId hmeEmail)
              else Call_reactivateHme (anonymousId hmeEmail) in
  let answer := if isActive hmeEmail
                then deactivateHme pms (anonymousId hmeEmail)
                else reactivateHme pms (anonymousId hmeEmail) in
  Manager.calls s' = (Manager.calls s ++ [call])%list /\
  Details.isActivateSubmitting (Manager.details s') = false /\
  Manager.searchPrompt s' = Manager.searchPrompt s /\
  match answer with
  | Returned _ =>
      Manager.fetchedHmeEmails s'
        = Manager.fetchedHmeEmails (Manager.activationCallbackFactory hmeEmail s) /\
      (truthy (Manager.searchPrompt s) = false ->
       Manager.selectedHmeIdx s' = Manager.selectedHmeIdx (Manager.rendered fuseSearch s).1 /\
       Manager.panelEmail (Manager.rendered fuseSearch s').2 = Some (toggled hmeEmail) /\
       Manager.details s' = Details.initial)
  | Thrown e =>
      Manager.fetchedHmeEmails s' = Manager.fetchedHmeEmails s /\
      Manager.selectedHmeIdx s' = Manager.selectedHmeIdx (Manager.rendered fuseSearch s).1 /\
      Manager.panelEmail (Manager.rendered fuseSearch s').2 = Some hmeEmail /\
      Details.error (Manager.details s') = Some e /\
      Details.isDeleteSubmitting (Manager.details s')
        = Details.isDeleteSubmitting (Manager.details s)
  end.
Proof.
  intros Hpanel.
  destruct (rendered_panel s hmeEmail Hpanel)
    as (fetched & idx & Hfetching & Herror & Hfetched & Hne & Hrendered & Hindex).
  cbn zeta. unfold Manager.activationClickSettled. rewrite Hrendered.
  cbn [fst snd Manager.panelEmail Manager.clickActivation].
  destruct (hmeListGrid_selected fuseSearch idx (Manager.searchPrompt s) fetched)
    as [Hsel Hdet].
  rewrite Hdet, Hsel, Hindex.
  set (flip := fun item => if decide (item = hmeEmail) then toggled hmeEmail else item).
  (* what the click leaves, for a failed and for a successful call *)
  set (failed := fun call e =>
    Manager.mk (Some fetched) (Manager.hmeEmailsError s) false idx
      (Manager.searchPrompt s)
      (Details.mk false (Details.isDeleteSubmitting (Manager.details s)) (Some e))
      (Manager.calls s ++ [call])).
  set (succeeded := fun call =>
    Manager.mk (Some (flip <$> fetched)) (Manager.hmeEmailsError s) false idx
      (Manager.searchPrompt s)
      (Details.mk false (Details.isDeleteSubmitting (Manager.details s))
                  (Details.error (Manager.details s)))
      (Manager.calls s ++ [call])).
  assert (Hfailed : forall call e,
    let s' := Manager.detailsEffect (Some hmeEmail)
                (Manager.panelEmail (Manager.rendered fuseSearch (failed call e)).2)
                (Manager.rendered fuseSearch (failed call e)).1 in
    Manager.calls s' = (Manager.calls s ++ [call])%list /\
    Details.isActivateSubmitting (Manager.details s') = false /\
    Manager.searchPrompt s' = Manager.searchPrompt s /\
    Manager.fetchedHmeEmails s' = Some fetched /\
    Manager.selectedHmeIdx s' = idx /\
    Manager.panelEmail (Manager.rendered fuseSearch s').2 = Some hmeEmail /\
    Details.error (Manager.details s') = Some e /\
    Details.isDeleteSubmitting (Manager.details s')
      = Details.isDeleteSubmitting (Manager.details s)).
  { intros call e.
    destruct (rendered_on_email (failed call e) fetched hmeEmail
                eq_refl Herror eq_refl Hindex Hne) as [Hsame Hshown].
    cbn zeta. rewrite Hshown, Hsame. cbn [fst]. unfold Manager.detailsEffect.
    destruct (decide (Some hmeEmail = Some hmeEmail)) as [_ | Hn]; [|contradiction].
    rewrite Hshown. repeat split. }
  assert (Hsucceeded : forall call,
    let s' := Manager.detailsEffect (Some hmeEmail)
                (Manager.panelEmail (Manager.rendered fuseSearch (succeeded call)).2)
                (Manager.rendered fuseSearch (succeeded call)).1 in
    Manager.calls s' = (Manager.calls s ++ [call])%list /\
    Details.isActivateSubmitting (Manager.details s') = false /\
    Manager.searchPrompt s' = Manager.searchPrompt s /\
    Manager.fetchedHmeEmails s' = Some (flip <$> fetched) /\
    (truthy (Manager.searchPrompt s) = false ->
     Manager.selectedHmeIdx s' = idx /\
     Manager.panelEmail (Manager.rendered fuseSearch s').2 = Some (toggled hmeEmail) /\
     Manager.details s' = Details.initial)).
  { intros call. cbn zeta.
    destruct (rendered_cells (succeeded call))
      as (Hf & Hp & _ & _ & Hc & Hd). cbn zeta in Hf, Hp, Hc, Hd.
    assert (Hgeneral :
      forall after,
        let s' := Manager.detailsEffect (Some hmeEmail) after
                    (Manager.rendered fuseSearch (succeeded call)).1 in
        Manager.calls s' = (Manager.calls s ++ [call])%list /\
        Details.isActivateSubmitting (Manager.details s') = false /\
        Manager.searchPrompt s' = Manager.searchPrompt s /\
        Manager.fetchedHmeEmails s' = Some (flip <$> fetched)).
    { intros after. cbn zeta. unfold Manager.detailsEffect.
      destruct (decide (after = Some hmeEmail)).
      - rewrite Hc, Hd, Hp, Hf. repeat split.
      - unfold Manager.updateDetails.
        cbn [Manager.calls Manager.details Manager.searchPrompt Manager.fetchedHmeEmails].
        rewrite Hc, Hp, Hf. repeat split. }
    destruct (Hgeneral (Manager.panelEmail
                          (Manager.rendered fuseSearch (succeeded call)).2))
      as (H1 & H2 & H3 & H4).
    split; [exact H1|]. split; [exact H2|]. split; [exact H3|]. split; [exact H4|].
    intros Hprompt.
    assert (Hne' : flip <$> fetched <> []).
    { destruct fetched; [contradiction | discriminate]. }
    assert (Hindex' :
      jsIndex (displayed (hmeListGrid fuseSearch idx (Manager.searchPrompt s)
                            (flip <$> fetched))) idx = Some (toggled hmeEmail)).
    { rewrite (displayed_without_prompt _ _ _ Hprompt).
      rewrite (displayed_without_prompt _ _ _ Hprompt) in Hindex.
      unfold jsIndex in *. destruct (idx <? 0); [discriminate|].
      rewrite list_lookup_fmap, Hindex. cbn. unfold flip.
      destruct (decide (hmeEmail = hmeEmail)); [reflexivity | contradiction]. }
    destruct (rendered_on_email (succeeded call) (flip <$> fetched) (toggled hmeEmail)
                eq_refl Herror eq_refl Hindex' Hne') as [Hsame Hshown].
    rewrite Hshown, Hsame. cbn [fst]. unfold Manager.detailsEffect.
    destruct (decide (Some (toggled hmeEmail) = Some hmeEmail)) as [Heq | _].
    { injection Heq as Heq. destruct (toggled_neq _ Heq). }
    split; [reflexivity|]. split; [|reflexivity].
    exact (proj2 (rendered_on_email
                    (Manager.updateDetails Details.onHmeChange (succeeded call))
                    (flip <$> fetched) (toggled hmeEmail)
                    eq_refl Herror eq_refl Hindex' Hne')). }
  assert (Hidx0 : Manager.selectedHmeIdx (Manager.setSelectedHmeIdx idx s) = idx)
    by reflexivity.
  rewrite Hidx0.
  assert (Hact : Manager.fetchedHmeEmails (Manager.activationCallbackFactory hmeEmail s)
                 = Some (flip <$> fetched)).
  { unfold Manager.activationCallbackFactory, Manager.setFetchedHmeEmails.
    cbn [Manager.fetchedHmeEmails]. rewrite Hfetched. reflexivity. }
  rewrite Hact.
  unfold Manager.onActivationClick.
  destruct (isActive hmeEmail).
  - destruct (deactivateHme pms (anonymousId hmeEmail)) as [[]|e].
    + pose proof (Hsucceeded (Call_deactivateHme (anonymousId hmeEmail))) as H.
      cbn zeta in H. unfold succeeded in H.
      unfold Manager.activationCallbackFactory, Manager.setFetchedHmeEmails,
        Manager.updateDetails, Manager.issue, Manager.setSelectedHmeIdx,
        Details.setIsActivateSubmitting.
      cbn [Manager.fetchedHmeEmails Manager.hmeEmailsError Manager.isFetching
           Manager.selectedHmeIdx Manager.searchPrompt Manager.details Manager.calls
           Details.isActivateSubmitting Details.isDeleteSubmitting Details.error].
      rewrite Hfetched, Hfetching. exact H.
    + pose proof (Hfailed (Call_deactivateHme (anonymousId hmeEmail)) e) as H.
      cbn zeta in H. unfold failed in H.
      unfold Manager.updateDetails, Manager.issue, Manager.setSelectedHmeIdx,
        Details.setIsActivateSubmitting, Details.setError.
      cbn [Manager.fetchedHmeEmails Manager.hmeEmailsError Manager.isFetching
           Manager.selectedHmeIdx Manager.searchPrompt Manager.details Manager.calls
           Details.isActivateSubmitting Details.isDeleteSubmitting Details.error].
      rewrite Hfetched, Hfetching.
      destruct H as (H1 & H2 & H3 & H4 & H5 & H6 & H7 & H8).
      repeat split; assumption.
  - destruct (reactivateHme pms (anonymousId hmeEmail)) as [[]|e].
    + pose proof (Hsucceeded (Call_reactivateHme (anonymousId hmeEmail))) as H.
      cbn zeta in H. unfold succeeded in H.
      unfold Manager.activationCallbackFactory, Manager.setFetchedHmeEmails,
        Manager.updateDetails, Manager.issue, Manager.setSelectedHmeIdx,
        Details.setIsActivateSubmitting.
      cbn [Manager.fetchedHmeEmails Manager.hmeEmailsError Manager.isFetching
           Manager.selectedHmeIdx Manager.searchPrompt Manager.details Manager.calls
           Details.isActivateSubmitting Details.isDeleteSubmitting Details.error].
      rewrite Hfetched, Hfetching. exact H.
    + pose proof (Hfailed (Call_reactivateHme (anonymousId hmeEmail)) e) as H.
      cbn zeta in H. unfold failed in H.
      unfold Manager.updateDetails, Manager.issue, Manager.setSelectedHmeIdx,
        Details.setIsActivateSubmitting, Details.setError.
      cbn [Manager.fetchedHmeEmails Manager.hmeEmailsError Manager.isFetching
           Manager.selectedHmeIdx Manager.searchPrompt Manager.details Manager.calls
           Details.isActivateSubmitting Details.isDeleteSubmitting Details.error].
      rewrite Hfetched, Hfetching.
      destruct H as (H1 & H2 & H3 & H4 & H5 & H6 & H7 & H8).
      repeat split; assumption.
Qed.

End ManagerRendering.

(** ** The two panes of the grid *)

Section GridPanes.

Variable fuseSearch : string -> list HmeEmail -> list HmeEmail.

Lemma imap_labels (f : nat -> HmeEmail -> string * bool) (l : list HmeEmail) :
  (forall i e, (f i e).1 = label e) -> (imap f l).*1 = label <$> l.
Proof.
  revert f. induction l as [|e l IH]; intros f Hf; [reflexivity|].
  cbn. f_equal; [apply Hf|]. apply IH. intros i e'. apply Hf.
Qed.

(** X11. The list displayed is the fetched list when no search prompt is
    set, whatever the search engine, and otherwise exactly what the engine
    returns for the prompt, an empty result included.  The left pane shows
    "No results" exactly when a prompt is set and nothing is displayed;
    otherwise it shows one label per displayed email, in order. *)
Theorem hmeListGrid_displayed (idx : Z) (prompt : option string)
    (fetched : list HmeEmail) :
  let grid := hmeListGrid fuseSearch idx prompt fetched in
  displayed grid =
    (if truthy prompt then fuseSearch (promptOrEmpty prompt) fetched else fetched) /\
  match leftPane grid with
  | NoSearchResult shownPrompt =>
      displayed grid = [] /\ truthy prompt = true /\ prompt = Some shownPrompt
  | LabelList labels =>
      (displayed grid = [] -> truthy prompt = false) /\
      labels.*1 = label <$> displayed grid
  end.
Proof.
  cbn zeta. split.
  { destruct (truthy prompt) eqn:Hp.
    - apply displayed_with_prompt. exact Hp.
    - apply displayed_without_prompt. exact Hp. }
  unfold hmeListGrid at 1. cbn [leftPane].
  set (shown := displayed (hmeListGrid fuseSearch idx prompt fetched)).
  change (default fetched (searchHmeEmails fuseSearch (promptOrEmpty prompt) fetched))
    with shown.
  destruct (decide (jsLength shown = 0)) as [Hzero | Hpos].
  - rewrite (bool_decide_eq_true_2 _ Hzero). cbn [andb].
    destruct (truthy prompt) eqn:Hp.
    + assert (Hne : promptOrEmpty prompt <> "").
      { intros He. apply truthy_false_promptOrEmpty in He. congruence. }
      rewrite (bool_decide_eq_false_2 _ Hne). cbn [negb].
      split; [apply jsLength_nil_iff; exact Hzero|]. split; [reflexivity|].
      destruct prompt as [p|]; [reflexivity | discriminate Hp].
    + assert (He : promptOrEmpty prompt = "") by (apply truthy_false_promptOrEmpty, Hp).
      rewrite (bool_decide_eq_true_2 _ He). cbn [negb].
      split; [reflexivity|].
      apply jsLength_nil_iff in Hzero. rewrite Hzero. reflexivity.
  - rewrite (bool_decide_eq_false_2 _ Hpos). cbn [andb].
    split.
    + intros Hnil. exfalso. apply Hpos. apply jsLength_nil_iff. exact Hnil.
    + apply imap_labels. intros i e. reflexivity.
Qed.

(** X12. In the label list the highlighted label is the one of the email
    whose details are shown: a label is highlighted only at the selected
    index, where it carries the label of the selected email; and when an
    email is selected, its label is there and highlighted. *)
Theorem hmeListGrid_highlight (idx : Z) (prompt : option string)
    (fetched : list HmeEmail) (labels : list (string * bool)) :
  let grid := hmeListGrid fuseSearch idx prompt fetched in
  leftPane grid = LabelList labels ->
  (forall (i : nat) (text : string),
     labels !! i = Some (text, true) ->
     Z.of_nat i = idx /\
     exists hmeEmail, hmeDetails grid = Some hmeEmail /\ text = label hmeEmail) /\
  (forall hmeEmail,
     hmeDetails grid = Some hmeEmail ->
     labels !! Z.to_nat idx = Some (label hmeEmail, true)).
Proof.
  cbn zeta. unfold hmeListGrid. cbn [leftPane hmeDetails].
  set (shown := default fetched (searchHmeEmails fuseSearch (promptOrEmpty prompt) fetched)).
  destruct (bool_decide (jsLength shown = 0) && _); [discriminate|].
  intros [= <-]. split.
  - intros i text Hi. rewrite list_lookup_imap in Hi.
    destruct (shown !! i) as [e|] eqn:He; [|discriminate Hi].
    cbn in Hi. injection Hi as <- Hb. apply bool_decide_eq_true_1 in Hb.
    split; [exact Hb|]. exists e. split; [|reflexivity].
    unfold jsIndex. rewrite <- Hb.
    destruct (Z.ltb_spec (Z.of_nat i) 0); [lia|]. rewrite Nat2Z.id. exact He.
  - intros e He. unfold jsIndex in He.
    destruct (Z.ltb_spec idx 0); [discriminate He|].
    rewrite list_lookup_imap, He. cbn.
    rewrite bool_decide_eq_true_2 by lia. reflexivity.
Qed.

End GridPanes.

(** ** [HmeGenerator] *)

Lemma orString_truthy (a : option string) (b : string) :
  truthy a = true -> Some (orString a b) = a.
Proof.
  unfold orString. intros H. destruct a; [rewrite H; reflexivity | discriminate H].
Qed.

Lemma orString_falsy (a : option string) (b : string) :
  truthy a = false -> orString a b = b.
Proof. unfold orString. intros ->. reflexivity. Qed.

Lemma orUndefined_not_empty (a : option string) : orUndefined a <> Some "".
Proof.
  unfold orUndefined, truthy. destruct a as [n|]; [|discriminate].
  destruct (decide (n = "")) as [-> | Hn].
  - rewrite bool_decide_eq_true_2 by reflexivity. discriminate.
  - rewrite bool_decide_eq_false_2 by assumption. cbn. congruence.
Qed.

(** X13. Submitting the reservation form without a generated address issues
    no call; with an address it issues exactly one [reserveHme] for that
    address, with the typed label, or the tab host when no label is typed,
    and with the note, or none when the note is empty.  A success stores the
    reserved email and clears the label and the note; a failure stores the
    reason and keeps the label and the note.  In every case the previous
    reservation and reservation error are dropped first and the submit button
    is released at the end. *)
Theorem Generator_onUseSubmit_outcome (pms : PremiumMailSettings) (s : Generator.t) :
  let s' := Generator.onUseSubmit pms s in
  Generator.isUseSubmitting s' = false /\
  Generator.hmeEmail s' = Generator.hmeEmail s /\
  Generator.tabHost s' = Generator.tabHost s /\
  Generator.hmeError s' = Generator.hmeError s /\
  match Generator.hmeEmail s with
  | None =>
      Generator.calls s' = Generator.calls s /\
      Generator.reservedHme s' = None /\ Generator.reserveError s' = None /\
      Generator.label s' = Generator.label s /\ Generator.note s' = Generator.note s
  | Some address =>
      let sentLabel := orString (Generator.label s) (Generator.tabHost s) in
      let sentNote := orUndefined (Generator.note s) in
      Generator.calls s'
        = (Generator.calls s ++ [Call_reserveHme address sentLabel sentNote])%list /\
      (truthy (Generator.label s) = true -> Some sentLabel = Generator.label s) /\
      (truthy (Generator.label s) = false -> sentLabel = Generator.tabHost s) /\
      sentNote <> Some "" /\
      match reserveHme pms address sentLabel sentNote with
      | Returned reserved =>
          Generator.reservedHme s' = Some reserved /\
          Generator.reserveError s' = None /\
          Generator.label s' = None /\ Generator.note s' = None
      | Thrown e =>
          Generator.reservedHme s' = None /\
          Generator.reserveError s' = Some e /\
          Generator.label s' = Generator.label s /\
          Generator.note s' = Generator.note s
      end
  end.
Proof.
  cbn zeta. unfold Generator.onUseSubmit.
  destruct (Generator.hmeEmail s) as [address|] eqn:Haddr; [|cbn; repeat split; exact Haddr].
  destruct (reserveHme pms address _ _) eqn:Hanswer; cbn; rewrite ?Hanswer;
    (split; [reflexivity|]); (split; [exact Haddr|]); (split; [reflexivity|]);
    (split; [reflexivity|]); (split; [reflexivity|]).
  all: split; [apply orString_truthy|].
  all: split; [apply orString_falsy|].
  all: split; [apply orUndefined_not_empty|].
  all: repeat split.
Qed.

(** X14. After a reservation that succeeded and returned the email of the
    address that was asked for, the reservation form is disabled, so the same
    address cannot be submitted again. *)
Theorem Generator_reserved_disables_form (pms : PremiumMailSettings)
    (s : Generator.t) (address : string) (reserved : HmeEmail) :
  Generator.hmeEmail s = Some address ->
  reserveHme pms address (orString (Generator.label s) (Generator.tabHost s))
    (orUndefined (Generator.note s)) = Returned reserved ->
  hme reserved = address ->
  Generator.isReservationFormDisabled (Generator.onUseSubmit pms s) = true.
Proof.
  intros Haddr Hanswer Hhme. unfold Generator.onUseSubmit. rewrite Haddr, Hanswer.
  unfold Generator.isReservationFormDisabled. cbn. rewrite Haddr, Hhme.
  rewrite bool_decide_eq_true_2 by reflexivity. apply orb_true_r.
Qed.

(** X15. A click on the refresh button issues exactly one [generateHme],
    drops the reservation, the reservation error and the previous generation
    error, and releases the spinner.  A success stores the new address; a
    failure keeps the previous address and stores the reason.  Afterwards the
    reservation form is disabled exactly when there is no address at all, so
    whenever the form is rendered it is enabled: after a failed refresh the
    form is enabled again for the previous address, also when that address had
    just been reserved. *)
Theorem Generator_onEmailRefreshClick_outcome (pms : PremiumMailSettings)
    (s : Generator.t) :
  let s' := Generator.onEmailRefreshClick pms s in
  Generator.calls s' = (Generator.calls s ++ [Call_generateHme])%list /\
  Generator.isEmailRefreshSubmitting s' = false /\
  Generator.reservedHme s' = None /\
  Generator.reserveError s' = None /\
  Generator.label s' = Generator.label s /\
  Generator.note s' = Generator.note s /\
  match generateHme pms with
  | Returned address =>
      Generator.hmeEmail s' = Some address /\ Generator.hmeError s' = None
  | Thrown e =>
      Generator.hmeEmail s' = Generator.hmeEmail s /\ Generator.hmeError s' = Some e
  end /\
  Generator.isReservationFormDisabled s'
    = bool_decide (Generator.hmeEmail s' = None) /\
  (Generator.showsReservationForm s' = true ->
   Generator.isReservationFormDisabled s' = false).
Proof.
  cbn zeta. unfold Generator.onEmailRefreshClick, Generator.isReservationFormDisabled,
    Generator.showsReservationForm.
  destruct (generateHme pms); cbn; repeat split;
    try (apply bool_decide_ext; reflexivity).
  destruct (Generator.hmeEmail s); [reflexivity | discriminate].
Qed.

(** X16. [getTabHost] either changes nothing, which is what it does when
    there is no active tab, when the tab has no URL and when the URL does not
    parse, or it sets the tab host and the label together to the host name of
    the URL of the first tab and nothing else. *)
Theorem Generator_getTabHost_outcome (hostnameOf : string -> Outcome string)
    (tabs : list (option string)) (s : Generator.t) :
  let s' := Generator.getTabHost hostnameOf tabs s in
  match tabs with
  | Some tabUrl :: _ =>
      match hostnameOf tabUrl with
      | Returned hostname =>
          Generator.tabHost s' = hostname /\ Generator.label s' = Some hostname /\
          s' = Generator.setLabel (Some hostname) (Generator.setTabHost hostname s)
      | Thrown _ => s' = s
      end
  | _ => s' = s
  end /\
  Generator.hmeEmail s' = Generator.hmeEmail s /\
  Generator.reservedHme s' = Generator.reservedHme s /\
  Generator.note s' = Generator.note s /\
  Generator.calls s' = Generator.calls s.
Proof.
  cbn zeta. unfold Generator.getTabHost.
  destruct tabs as [|[tabUrl|] tabs]; [repeat split | | repeat split].
  destruct (hostnameOf tabUrl); repeat split.
Qed.

(** X17. Once the host of the active tab is known and it is not empty, a
    reservation submitted before any label is typed is sent with that host
    as its label. *)
Theorem Generator_label_defaults_to_tab_host (hostnameOf : string -> Outcome string)
    (pms : PremiumMailSettings) (tabs : list (option string)) (tabUrl hostname : string)
    (address : string) (s : Generator.t) :
  head tabs = Some (Some tabUrl) ->
  hostnameOf tabUrl = Returned hostname ->
  hostname <> "" ->
  Generator.hmeEmail s = Some address ->
  Generator.calls (Generator.onUseSubmit pms (Generator.getTabHost hostnameOf tabs s))
  = (Generator.calls s
       ++ [Call_reserveHme address hostname (orUndefined (Generator.note s))])%list.
Proof.
  intros Htabs Hhost Hne Haddr.
  destruct tabs as [|tab tabs]; [discriminate|]. cbn in Htabs. injection Htabs as ->.
  unfold Generator.getTabHost. rewrite Hhost.
  unfold Generator.onUseSubmit.
  cbn [Generator.hmeEmail Generator.setLabel Generator.setTabHost Generator.label
       Generator.tabHost Generator.note].
  rewrite Haddr.
  assert (Hlabel : orString (Some hostname) hostname = hostname).
  { unfold orString, truthy. rewrite bool_decide_eq_false_2 by assumption. reflexivity. }
  rewrite Hlabel.
  destruct (reserveHme pms address hostname (orUndefined (Generator.note s)));
    reflexivity.
Qed.

(** X18. The refresh button does what the generation on mount does, after
    dropping the reservation and the reservation error. *)
Theorem Generator_refresh_is_fetch (pms : PremiumMailSettings) (s : Generator.t) :
  Generator.onEmailRefreshClick pms s
  = Generator.fetchHmeEmail pms
      (Generator.setReserveError None (Generator.setReservedHme None s)).
Proof.
  unfold Generator.onEmailRefreshClick, Generator.fetchHmeEmail.
  destruct (generateHme pms); reflexivity.
Qed.

(** ** The properties of the alias screens at concrete inputs *)

(** X4 at the sample management view, toggling the shop email. *)
Lemma activationCallbackFactory_round_trip_witness :
  (forall before, Manager.fetchedHmeEmails sampleManager = Some before ->
                  toggled shopEmail ∉ before) /\
  Manager.activationCallbackFactory (toggled shopEmail)
    (Manager.activationCallbackFactory shopEmail sampleManager) = sampleManager.
Proof.
  assert (Hfresh : forall before,
            Manager.fetchedHmeEmails sampleManager = Some before ->
            toggled shopEmail ∉ before).
  { intros before [= <-] Hin.
    apply elem_of_cons in Hin as [Heq | Hin]; [discriminate Heq|].
    apply elem_of_cons in Hin as [Heq | Hin]; [discriminate Heq|].
    apply elem_of_nil in Hin. exact Hin. }
  split; [exact Hfresh|].
  exact (activationCallbackFactory_round_trip shopEmail sampleManager Hfresh).
Defined.

(** X6 at the sample management view, whose panel shows the shop email and
    the error of an earlier click: a click that succeeds, and one that fails. *)
Lemma Manager_onActivationClick_outcome_witness :
  Manager.panelEmail (Manager.rendered substringSearch sampleManagerAfterError).2
    = Some shopEmail /\
  (let s' := Manager.activationClickSettled substringSearch grantingPms
               sampleManagerAfterError in
   Manager.calls s' = [Call_deactivateHme "id-1"; Call_deactivateHme "id-1"] /\
   Manager.fetchedHmeEmails s' = Some [newsEmail; toggled shopEmail] /\
   Manager.panelEmail (Manager.rendered substringSearch s').2 = Some (toggled shopEmail) /\
   Manager.details s' = Details.initial) /\
  (let s' := Manager.activationClickSettled substringSearch refusingPms
               sampleManagerAfterError in
   Manager.fetchedHmeEmails s' = Some [newsEmail; shopEmail] /\
   Manager.panelEmail (Manager.rendered substringSearch s').2 = Some shopEmail /\
   Details.error (Manager.details s') = Some "Error: request failed").
Proof.
  assert (Hpanel : Manager.panelEmail
                     (Manager.rendered substringSearch sampleManagerAfterError).2
                   = Some shopEmail) by reflexivity.
  split; [exact Hpanel|]. split.
  - destruct (Manager_onActivationClick_outcome substringSearch grantingPms
                sampleManagerAfterError shopEmail Hpanel)
      as (Hcalls & _ & _ & Hfetched & Hsettled).
    destruct (Hsettled eq_refl) as (_ & Hshown & Hdetails).
    cbn zeta. split; [exact Hcalls|]. split; [exact Hfetched|].
    split; [exact Hshown | exact Hdetails].
  - destruct (Manager_onActivationClick_outcome substringSearch refusingPms
                sampleManagerAfterError shopEmail Hpanel)
      as (_ & _ & _ & Hfetched & _ & Hshown & Herror & _).
    cbn zeta. split; [exact Hfetched|]. split; [exact Hshown | exact Herror].
Defined.

(** X10 at the sample management view: the second and last email is
    deleted, the first one is selected. *)
Lemma Manager_delete_selected_witness :
  exists s' grid,
    Manager.render substringSearch 2
      (Manager.deletionCallbackFactory shopEmail sampleManager)
      = Some (s', Manager.Grid grid) /\
    displayed grid = [newsEmail] /\
    selectedHmeEmail grid = Some newsEmail.
Proof.
  assert (Hnodup : NoDup [newsEmail; shopEmail]).
  { apply NoDup_cons. split.
    - intros Hin. apply elem_of_cons in Hin as [Heq | Hin]; [discriminate Heq|].
      apply elem_of_nil in Hin. exact Hin.
    - apply NoDup_cons. split; [apply not_elem_of_nil | apply NoDup_nil_2]. }
  destruct (Manager_delete_selected substringSearch sampleManager
              [newsEmail; shopEmail] 1 shopEmail
              eq_refl eq_refl eq_refl eq_refl Hnodup eq_refl eq_refl)
    as (_ & s' & child & Hrun & _ & Hmany).
  destruct Hmany as (grid & next & -> & Hshown & Hnext & Hsel & _); [cbn; lia|].
  exists s', grid. split; [exact Hrun|]. split; [exact Hshown|].
  rewrite Hsel, <- Hnext. reflexivity.
Defined.

(** X12 at the sample list with the second email selected. *)
Lemma hmeListGrid_highlight_witness :
  let grid := hmeListGrid substringSearch 1 None [newsEmail; shopEmail] in
  leftPane grid = LabelList [(label newsEmail, false); (label shopEmail, true)] /\
  hmeDetails grid = Some shopEmail /\
  (forall (i : nat) (text : string),
     [(label newsEmail, false); (label shopEmail, true)] !! i = Some (text, true) ->
     Z.of_nat i = 1).
Proof.
  cbn zeta.
  assert (Hpane : leftPane (hmeListGrid substringSearch 1 None [newsEmail; shopEmail])
                  = LabelList [(label newsEmail, false); (label shopEmail, true)])
    by reflexivity.
  destruct (hmeListGrid_highlight substringSearch 1 None [newsEmail; shopEmail] _ Hpane)
    as [Honly _].
  split; [exact Hpane|]. split; [reflexivity|].
  intros i text Hi. exact (proj1 (Honly i text Hi)).
Defined.

(** X14 at the sample generator and the granting service. *)
Lemma Generator_reserved_disables_form_witness :
  Generator.hmeEmail sampleGenerator = Some "elm.kite.2c@icloud.com" /\
  Generator.isReservationFormDisabled sampleGenerator = false /\
  Generator.isReservationFormDisabled
    (Generator.onUseSubmit grantingPms sampleGenerator) = true.
Proof.
  split; [reflexivity|]. split; [reflexivity|].
  exact (Generator_reserved_disables_form grantingPms sampleGenerator
           "elm.kite.2c@icloud.com" _ eq_refl eq_refl eq_refl).
Defined.

(** X17 at the sample generator on a shop page. *)
Lemma Generator_label_defaults_to_tab_host_witness :
  let tabs := [Some "https://shop.example.com/cart"] in
  head tabs = Some (Some "https://shop.example.com/cart") /\
  sampleHostnameOf "https://shop.example.com/cart" = Returned "shop.example.com" /\
  Generator.calls
    (Generator.onUseSubmit grantingPms
       (Generator.getTabHost sampleHostnameOf tabs sampleGenerator))
  = [Call_listHme; Call_generateHme;
     Call_reserveHme "elm.kite.2c@icloud.com" "shop.example.com" None].
Proof.
  cbn zeta. split; [reflexivity|]. split; [reflexivity|].
  assert (Hne : "shop.example.com" <> "") by discriminate.
  exact (Generator_label_defaults_to_tab_host sampleHostnameOf grantingPms
           [Some "https://shop.example.com/cart"] "https://shop.example.com/cart"
           "shop.example.com" "elm.kite.2c@icloud.com" sampleGenerator
           eq_refl eq_refl Hne eq_refl).
Defined.
